(** * trae-agent: the Azure OpenAI client adapter

    A shallow embedding of [trae_agent/utils/azure_client.py] and the
    properties of its message translation, history handling and response
    construction.

    Python values are modelled as follows.
    - [str] is [string]; a character stands for the code point of the same
      number (U+0000 to U+00FF).
    - [None]-able fields are [option]s; an exception is a value of
      [exception], carried by [result].
    - [int] is [Z], [float] is the kernel's binary64 [float].
    - The object [self], the provider behind the SDK and the trajectory
      recorder form the state threaded by the monad [M].
    - [json.dumps], [json.loads], the SDK's [chat.completions.create] and the
      recorder's [record_llm_interaction] are not code of this module: they
      are the fields of the class [Collaborators], and every theorem holds
      for every instance of it. The SDK's constructor [openai.AzureOpenAI],
      which can raise, is the field of the class [AzureSDK]. *)

From Stdlib Require Import String Ascii List ZArith Bool Lia Floats DecimalString.
Import ListNotations.
Open Scope string_scope.
Open Scope list_scope.

(** ** Python strings *)

Module Py.

(** The line feed, written ["\n"] in the source. *)
Definition LF : string := String "010"%char EmptyString.

(** [str.isspace] on one character: the code points Python's [str.strip]
    removes, among U+0000 to U+00FF. *)
Definition isspace (c : ascii) : bool :=
  let n := nat_of_ascii c in
  ((9 <=? n) && (n <=? 13) || (28 <=? n) && (n <=? 32)
   || (n =? 133) || (n =? 160))%nat.

Fixpoint lstrip (s : string) : string :=
  match s with
  | EmptyString => EmptyString
  | String c rest => if isspace c then lstrip rest else s
  end.

Fixpoint rstrip (s : string) : string :=
  match s with
  | EmptyString => EmptyString
  | String c rest =>
      match rstrip rest with
      | EmptyString => if isspace c then EmptyString else String c EmptyString
      | kept => String c kept
      end
  end.

(** [s.strip()] *)
Definition strip (s : string) : string := lstrip (rstrip s).

(** Truth value of a [list | None]: false for [None] and for [[]]. *)
Definition truthy_list {A : Type} (o : option (list A)) : bool :=
  match o with
  | Some (_ :: _) => true
  | _ => false
  end.

(** [x or ""] on a [str | None] *)
Definition or_empty (o : option string) : string :=
  match o with
  | Some (String c rest) => String c rest
  | _ => EmptyString
  end.

(** [x or 0] on an [int | None] *)
Definition or_zero (o : option Z) : Z :=
  match o with
  | Some z => if (z =? 0)%Z then 0%Z else z
  | None => 0%Z
  end.

End Py.

(** ** Values handed to [json.dumps] and returned by [json.loads] *)

#[warnings="-register-all"]
Inductive json : Type :=
| JNull
| JBool (b : bool)
| JInt (z : Z)
| JStr (s : string)
| JList (items : list json)
| JDict (items : list (string * json)).

(** ** Exceptions *)

Inductive exception : Type :=
| ValueError (msg : string)       (* raised by this module's own checks *)
| IndexError (msg : string)       (* indexing an empty list *)
| JSONDecodeError (doc : string)  (* [json.loads] on a malformed document *)
| ProviderError (detail : string) (* whatever the SDK call raised *)
| RecorderError (detail : string) (* whatever the recorder raised *).

Inductive result (A : Type) : Type :=
| Ok (a : A)
| Raise (e : exception).
Arguments Ok {A} a.
Arguments Raise {A} e.

(** ** The provider-agnostic message model ([tools.base], [llm_basics]) *)

Module ToolCall.
Record t : Type := mk { name : string; call_id : string; arguments : json }.
End ToolCall.

Module ToolResult.
(** The fields [parse_messages] reads. *)
Record t : Type :=
  mk { call_id : string; result : option string; error : option string }.
End ToolResult.

Module LLMMessage.
Record t : Type :=
  mk { role : string;
       content : option string;
       tool_call : option ToolCall.t;
       tool_result : option ToolResult.t }.
End LLMMessage.

Module LLMUsage.
Record t : Type := mk { input_tokens : Z; output_tokens : Z }.
End LLMUsage.

Module LLMResponse.
Record t : Type :=
  mk { content : string;
       tool_calls : option (list ToolCall.t);
       finish_reason : string;
       model : string;
       usage : option LLMUsage.t }.
End LLMResponse.

(** ** Provider-native records ([openai.types.chat]) *)

Module Function.
Record t : Type := mk { name : string; arguments : string }.
End Function.

Module ChatCompletionMessageToolCallParam.
Record t : Type := mk { id : string; function : Function.t; type : string }.
End ChatCompletionMessageToolCallParam.

Module ChatCompletionMessageParam.
(** A message record of the request: a dictionary with the keys [role] and
    [content], and the keys [name], [tool_call_id] and [tool_calls] present
    or absent. *)
Record t : Type :=
  mk { role : string;
       content : string;
       name : option string;
       tool_call_id : option string;
       tool_calls : option (list ChatCompletionMessageToolCallParam.t) }.
End ChatCompletionMessageParam.

Definition ChatCompletionFunctionMessageParam
    (content role name : string) : ChatCompletionMessageParam.t :=
  ChatCompletionMessageParam.mk role content (Some name) None None.

Definition ChatCompletionToolMessageParam
    (content role tool_call_id : string) : ChatCompletionMessageParam.t :=
  ChatCompletionMessageParam.mk role content None (Some tool_call_id) None.

Definition ChatCompletionSystemMessageParam
    (content role : string) : ChatCompletionMessageParam.t :=
  ChatCompletionMessageParam.mk role content None None None.

Definition ChatCompletionUserMessageParam
    (content role : string) : ChatCompletionMessageParam.t :=
  ChatCompletionMessageParam.mk role content None None None.

Definition ChatCompletionAssistantMessageParam
    (role content : string)
    (tool_calls : option (list ChatCompletionMessageToolCallParam.t))
    : ChatCompletionMessageParam.t :=
  ChatCompletionMessageParam.mk role content None None tool_calls.

(** ** The provider's response ([openai.types.chat.ChatCompletion]) *)

Module FunctionCall.
Record t : Type := mk { name : string; arguments : string }.
End FunctionCall.

Module ChatCompletionMessageToolCall.
Record t : Type := mk { id : string; function : FunctionCall.t }.
End ChatCompletionMessageToolCall.

Module ChatCompletionMessage.
Record t : Type :=
  mk { content : option string;
       tool_calls : option (list ChatCompletionMessageToolCall.t) }.
End ChatCompletionMessage.

Module Choice.
Record t : Type :=
  mk { message : ChatCompletionMessage.t; finish_reason : string }.
End Choice.

Module CompletionUsage.
Record t : Type :=
  mk { prompt_tokens : option Z; completion_tokens : option Z }.
End CompletionUsage.

Module ChatCompletion.
Record t : Type :=
  mk { choices : list Choice.t;
       model : string;
       usage : option CompletionUsage.t }.
End ChatCompletion.

(** ** Configuration, tools and the request *)

Module ModelParameters.
Record t : Type :=
  mk { model : string;
       api_key : string;
       max_tokens : Z;
       temperature : float;
       top_p : float;
       top_k : Z;
       parallel_tool_calls : bool;
       max_retries : Z;
       base_url : option string;
       api_version : option string }.
End ModelParameters.

Module Tool.
(** What the tool registry supplies through [get_name],
    [get_description] and [get_input_schema]. *)
Record t : Type :=
  mk { get_name : string; get_description : string; get_input_schema : json }.
End Tool.

Module FunctionDefinition.
Record t : Type :=
  mk { name : string; description : string; parameters : json }.
End FunctionDefinition.

Module ChatCompletionToolParam.
Record t : Type := mk { function : FunctionDefinition.t; type : string }.
End ChatCompletionToolParam.

Module AzureOpenAI.
(** The SDK's client object: the connection fields it was built from. *)
Record t : Type :=
  mk { azure_endpoint : string;
       api_version : option string;
       api_key : string }.
End AzureOpenAI.

Module Request.
(** The keyword arguments of [chat.completions.create]; [tools] is [None]
    where the source passes [openai.NOT_GIVEN]. *)
Record t : Type :=
  mk { model : string;
       messages : list ChatCompletionMessageParam.t;
       tools : option (list ChatCompletionToolParam.t);
       temperature : float;
       top_p : float;
       max_tokens : Z;
       n : Z }.
End Request.

(** A handle on a trajectory recorder. *)
Inductive TrajectoryRecorder : Type := recorder (id : nat).

Module Interaction.
(** The keyword arguments of [record_llm_interaction]. *)
Record t : Type :=
  mk { messages : list LLMMessage.t;
       response : LLMResponse.t;
       provider : string;
       model : string;
       tools : option (list Tool.t) }.
End Interaction.

(** ** External collaborators *)

Class Collaborators : Type :=
  { (** the state of everything outside the process *)
    World : Type;
    json_dumps : json -> string;
    (** [None] when the document is malformed *)
    json_loads : string -> option json;
    (** [client.chat.completions.create(...)]: the failure's text, or the
        completion *)
    completions_create :
      AzureOpenAI.t -> Request.t -> World -> (string + ChatCompletion.t) * World;
    (** [recorder.record_llm_interaction(...)]: the failure's text, if any *)
    record_llm_interaction :
      TrajectoryRecorder -> Interaction.t -> World -> option string * World }.

(** ** The client object and the state of a run *)

Module AzureClient.
(** The attributes of [self]: those [BaseLLMClient.__init__] sets, then
    [client] and [message_history]. *)
Record t : Type :=
  mk { api_key : string;
       base_url : option string;
       api_version : option string;
       trajectory_recorder : option TrajectoryRecorder;
       client : AzureOpenAI.t;
       message_history : list ChatCompletionMessageParam.t }.

Definition with_message_history
    (self : t) (history : list ChatCompletionMessageParam.t) : t :=
  mk (api_key self) (base_url self) (api_version self)
     (trajectory_recorder self) (client self) history.
End AzureClient.

Module BaseLLMClient.
Record t : Type :=
  mk { api_key : string;
       base_url : option string;
       api_version : option string;
       trajectory_recorder : option TrajectoryRecorder }.

(** Modelled from the spec: [BaseLLMClient.__init__] ([base_client.py]) is
    not among the sources. The spec has [construct(config)] store the API
    key and the base URL verbatim, retrievable as [client.api_key] and
    [client.base_url]; the API version is stored alike, and no trajectory
    recorder is attached yet. *)
Definition __init__ (model_parameters : ModelParameters.t) : t :=
  mk (ModelParameters.api_key model_parameters)
     (ModelParameters.base_url model_parameters)
     (ModelParameters.api_version model_parameters)
     None.
End BaseLLMClient.

(** One invocation of the provider, as the run recorded it. *)
Record Attempt : Type :=
  { request : Request.t; outcome : string + ChatCompletion.t }.

Section Client.

Context {C : Collaborators}.

(** [network] is a ghost log: every call of [chat.completions.create], in
    order, with what it returned. *)
Record State : Type :=
  { self : AzureClient.t; world : World; network : list Attempt }.

(** A method body: it reads and writes the state and returns or raises;
    what it wrote before raising stays written. *)
Definition M (A : Type) : Type := State -> result A * State.

Definition ret {A : Type} (a : A) : M A := fun st => (Ok a, st).

Definition raise {A : Type} (e : exception) : M A := fun st => (Raise e, st).

Definition bind {A B : Type} (m : M A) (k : A -> M B) : M B :=
  fun st =>
    match m st with
    | (Ok a, st') => k a st'
    | (Raise e, st') => (Raise e, st')
    end.

Definition lift {A : Type} (r : result A) : M A := fun st => (r, st).

Definition get_message_history : M (list ChatCompletionMessageParam.t) :=
  fun st => (Ok (AzureClient.message_history (self st)), st).

Definition set_message_history
    (history : list ChatCompletionMessageParam.t) : M unit :=
  fun st =>
    (Ok tt,
     {| self := AzureClient.with_message_history (self st) history;
        world := world st;
        network := network st |}).

End Client.

Notation "x <- m ;; k" := (bind m (fun x => k))
  (at level 61, m at next level, right associativity).
Notation "m ;;; k" := (bind m (fun _ => k))
  (at level 61, right associativity).

(** The SDK's constructor
    [openai.AzureOpenAI(azure_endpoint=..., api_version=..., api_key=...)],
    in the environment of the process: the client it builds, or the text of
    the error it raises (it raises, for one, when no API version is given
    and the environment names none, and when no credentials are found). *)
Class AzureSDK : Type :=
  { new_AzureOpenAI :
      string -> option string -> string -> string + AzureOpenAI.t }.

Section Methods.

Context {C : Collaborators}.

(** *** [AzureClient.__init__] *)

Definition __init__ {S : AzureSDK} (model_parameters : ModelParameters.t)
    : result AzureClient.t :=
  let base := BaseLLMClient.__init__ model_parameters in
  match BaseLLMClient.base_url base with
  | Some (String c rest) =>
      match
        new_AzureOpenAI (String c rest)
          (BaseLLMClient.api_version base)
          (BaseLLMClient.api_key base)
      with
      | inr client =>
          Ok (AzureClient.mk
                (BaseLLMClient.api_key base)
                (BaseLLMClient.base_url base)
                (BaseLLMClient.api_version base)
                (BaseLLMClient.trajectory_recorder base)
                client
                [])
      | inl detail => Raise (ProviderError detail)
      end
  | _ => Raise (ValueError "base_url is required for AzureClient")
  end.

(** *** [AzureClient.parse_messages] *)

(** The content of a tool-role record (the [elif msg.tool_result] branch up
    to [result.strip()]). *)
Definition tool_result_content (tool_result : ToolResult.t) : string :=
  let result := EmptyString in
  let result :=
    match ToolResult.result tool_result with
    | Some (String c rest) => (result ++ String c rest ++ Py.LF)%string
    | _ => result
    end in
  let result :=
    match ToolResult.error tool_result with
    | Some (String c rest) =>
        ((result ++ "Tool call failed with error:" ++ Py.LF)
           ++ String c rest)%string
    | _ => result
    end in
  Py.strip result.

(** The body of the loop: the record for one message, or the error. *)
Definition parse_message (msg : LLMMessage.t)
    : result ChatCompletionMessageParam.t :=
  match LLMMessage.tool_call msg with
  | Some tool_call =>
      Ok (ChatCompletionFunctionMessageParam
            (json_dumps
               (JDict [("name", JStr (ToolCall.name tool_call));
                       ("arguments", ToolCall.arguments tool_call)]))
            "function"
            (ToolCall.name tool_call))
  | None =>
      match LLMMessage.tool_result msg with
      | Some tool_result =>
          Ok (ChatCompletionToolMessageParam
                (tool_result_content tool_result)
                "tool"
                (ToolResult.call_id tool_result))
      | None =>
          if (LLMMessage.role msg =? "system")%string then
            match LLMMessage.content msg with
            | Some (String c rest) =>
                Ok (ChatCompletionSystemMessageParam (String c rest) "system")
            | _ => Raise (ValueError "System message content is required")
            end
          else if (LLMMessage.role msg =? "user")%string then
            match LLMMessage.content msg with
            | Some (String c rest) =>
                Ok (ChatCompletionUserMessageParam (String c rest) "user")
            | _ => Raise (ValueError "User message content is required")
            end
          else if (LLMMessage.role msg =? "assistant")%string then
            match LLMMessage.content msg with
            | Some (String c rest) =>
                Ok (ChatCompletionAssistantMessageParam
                      "assistant" (String c rest) None)
            | _ => Raise (ValueError "Assistant message content is required")
            end
          else
            Raise (ValueError
                     ("Invalid message role: " ++ LLMMessage.role msg)%string)
      end
  end.

(** The [for] loop, [azure_messages] being the list built so far. *)
Fixpoint parse_messages_loop
    (messages : list LLMMessage.t)
    (azure_messages : list ChatCompletionMessageParam.t)
    : result (list ChatCompletionMessageParam.t) :=
  match messages with
  | [] => Ok azure_messages
  | msg :: rest =>
      match parse_message msg with
      | Ok record => parse_messages_loop rest (azure_messages ++ [record])
      | Raise e => Raise e
      end
  end.

Definition parse_messages (messages : list LLMMessage.t)
    : result (list ChatCompletionMessageParam.t) :=
  parse_messages_loop messages [].

(** *** [AzureClient.set_chat_history] *)

Definition set_chat_history (messages : list LLMMessage.t) : M unit :=
  history <- lift (parse_messages messages) ;;
  set_message_history history.

(** *** [AzureClient.supports_tool_calling] *)

Definition supports_tool_calling (model_parameters : ModelParameters.t)
    : M bool :=
  ret true.

End Methods.

Section Chat.

Context {C : Collaborators}.

(** *** [AzureClient._create_azure_response] *)

Definition _create_azure_response
    (args : ModelParameters.t * option (list ChatCompletionToolParam.t))
    : M ChatCompletion.t :=
  let (model_parameters, tool_schemas) := args in
  fun st =>
    let req :=
      Request.mk
        (ModelParameters.model model_parameters)
        (AzureClient.message_history (self st))
        (if Py.truthy_list tool_schemas then tool_schemas else None)
        (ModelParameters.temperature model_parameters)
        (ModelParameters.top_p model_parameters)
        (ModelParameters.max_tokens model_parameters)
        1%Z in
    let (out, world') :=
      completions_create (AzureClient.client (self st)) req (world st) in
    (match out with
     | inl detail => Raise (ProviderError detail)
     | inr completion => Ok completion
     end,
     {| self := self st;
        world := world';
        network := network st ++ [{| request := req; outcome := out |}] |}).

(** *** The retry wrapper *)

(** Invoke [call]; on failure invoke it again while retries are left, and
    raise the last failure when none is. *)
Fixpoint retry_loop {A : Type} (call : M A) (retries_left : nat) : M A :=
  fun st =>
    match call st with
    | (Ok a, st') => (Ok a, st')
    | (Raise e, st') =>
        match retries_left with
        | O => (Raise e, st')
        | S fewer => retry_loop call fewer st'
        end
    end.

(** Modelled from the spec: [retry_utils.retry_with] is not among the
    sources. The spec: given a fallible call, a service label (for
    diagnostics) and a maximum retry count, it re-invokes the call on
    failure up to that count, then re-raises the last failure. The label
    only appears in diagnostics and the delay between attempts is time:
    neither is part of the model. *)
Definition retry_with {Args A : Type}
    (func : Args -> M A) (service_name : string) (max_retries : Z)
    : Args -> M A :=
  fun args => retry_loop (func args) (Z.to_nat max_retries).

(** *** [AzureClient.chat] *)

(** The comprehension building [tool_schemas]. *)
Definition tool_schema (tool : Tool.t) : ChatCompletionToolParam.t :=
  ChatCompletionToolParam.mk
    (FunctionDefinition.mk
       (Tool.get_name tool)
       (Tool.get_description tool)
       (Tool.get_input_schema tool))
    "function".

(** [response.choices[0]] *)
Definition first_choice (response : ChatCompletion.t) : result Choice.t :=
  match ChatCompletion.choices response with
  | choice :: _ => Ok choice
  | [] => Raise (IndexError "list index out of range")
  end.

(** The [ToolCall] built from one provider tool call. *)
Definition to_ToolCall (tool_call : ChatCompletionMessageToolCall.t)
    : result ToolCall.t :=
  let fn := ChatCompletionMessageToolCall.function tool_call in
  match FunctionCall.arguments fn with
  | String c rest =>
      match json_loads (String c rest) with
      | Some arguments =>
          Ok (ToolCall.mk (FunctionCall.name fn)
                (ChatCompletionMessageToolCall.id tool_call)
                arguments)
      | None => Raise (JSONDecodeError (String c rest))
      end
  | EmptyString =>
      Ok (ToolCall.mk (FunctionCall.name fn)
            (ChatCompletionMessageToolCall.id tool_call)
            (JDict []))
  end.

(** The loop over [choice.message.tool_calls], [tool_calls] being the list
    built so far. *)
Fixpoint tool_calls_loop
    (provider_calls : list ChatCompletionMessageToolCall.t)
    (tool_calls : list ToolCall.t) : result (list ToolCall.t) :=
  match provider_calls with
  | [] => Ok tool_calls
  | tool_call :: rest =>
      match to_ToolCall tool_call with
      | Ok call => tool_calls_loop rest (tool_calls ++ [call])
      | Raise e => Raise e
      end
  end.

Definition extract_tool_calls (choice : Choice.t)
    : result (option (list ToolCall.t)) :=
  match ChatCompletionMessage.tool_calls (Choice.message choice) with
  | Some (tool_call :: rest) =>
      match tool_calls_loop (tool_call :: rest) [] with
      | Ok tool_calls => Ok (Some tool_calls)
      | Raise e => Raise e
      end
  | _ => Ok None
  end.

Definition build_usage (response : ChatCompletion.t) : option LLMUsage.t :=
  match ChatCompletion.usage response with
  | Some usage =>
      Some (LLMUsage.mk
              (Py.or_zero (CompletionUsage.prompt_tokens usage))
              (Py.or_zero (CompletionUsage.completion_tokens usage)))
  | None => None
  end.

Definition build_llm_response
    (response : ChatCompletion.t) (choice : Choice.t)
    (tool_calls : option (list ToolCall.t)) : LLMResponse.t :=
  LLMResponse.mk
    (Py.or_empty (ChatCompletionMessage.content (Choice.message choice)))
    tool_calls
    (Choice.finish_reason choice)
    (ChatCompletion.model response)
    (build_usage response).

(** The tool-call entry of the assistant record, for one [ToolCall]. *)
Definition tool_call_param (tool_call : ToolCall.t)
    : ChatCompletionMessageToolCallParam.t :=
  ChatCompletionMessageToolCallParam.mk
    (ToolCall.call_id tool_call)
    (Function.mk (ToolCall.name tool_call)
       (json_dumps (ToolCall.arguments tool_call)))
    "function".

(** [self.message_history.append(record)] *)
Definition append_message_history
    (record : ChatCompletionMessageParam.t) : M unit :=
  history <- get_message_history ;;
  set_message_history (history ++ [record]).

(** The block under [# update message history]. *)
Definition update_message_history (llm_response : LLMResponse.t) : M unit :=
  match LLMResponse.tool_calls llm_response with
  | Some (tool_call :: rest) =>
      append_message_history
        (ChatCompletionAssistantMessageParam
           "assistant"
           (LLMResponse.content llm_response)
           (Some (map tool_call_param (tool_call :: rest))))
  | _ =>
      match LLMResponse.content llm_response with
      | String c rest =>
          append_message_history
            (ChatCompletionAssistantMessageParam
               "assistant" (String c rest) None)
      | EmptyString => ret tt
      end
  end.

(** The block under [if self.trajectory_recorder]. *)
Definition record_interaction
    (messages : list LLMMessage.t) (llm_response : LLMResponse.t)
    (model_parameters : ModelParameters.t) (tools : option (list Tool.t))
    : M unit :=
  fun st =>
    match AzureClient.trajectory_recorder (self st) with
    | Some trajectory_recorder =>
        let (failure, world') :=
          record_llm_interaction trajectory_recorder
            (Interaction.mk messages llm_response "azure"
               (ModelParameters.model model_parameters) tools)
            (world st) in
        (match failure with
         | Some detail => Raise (RecorderError detail)
         | None => Ok tt
         end,
         {| self := self st; world := world'; network := network st |})
    | None => (Ok tt, st)
    end.

Definition chat
    (messages : list LLMMessage.t)
    (model_parameters : ModelParameters.t)
    (tools : option (list Tool.t))
    (reuse_history : bool) : M LLMResponse.t :=
  azure_messages <- lift (parse_messages messages) ;;
  (if reuse_history then
     history <- get_message_history ;;
     set_message_history (history ++ azure_messages)
   else
     set_message_history azure_messages) ;;;
  let tool_schemas :=
    match tools with
    | Some (tool :: rest) => Some (map tool_schema (tool :: rest))
    | _ => None
    end in
  let retry_decorator :=
    retry_with _create_azure_response "Azure OpenAI"
      (ModelParameters.max_retries model_parameters) in
  response <- retry_decorator (model_parameters, tool_schemas) ;;
  choice <- lift (first_choice response) ;;
  tool_calls <- lift (extract_tool_calls choice) ;;
  let llm_response := build_llm_response response choice tool_calls in
  update_message_history llm_response ;;;
  record_interaction messages llm_response model_parameters tools ;;;
  ret llm_response.

End Chat.

(** ** Vocabulary of the specification *)

Section Vocabulary.

Context {C : Collaborators}.

(** The roles of plain messages. *)
Definition plain_role (role : string) : Prop :=
  role = "system" \/ role = "user" \/ role = "assistant".

(** Empty or missing content. *)
Definition lacks_content (content : option string) : Prop :=
  content = None \/ content = Some EmptyString.

(** A message the specification has rejected: it carries neither a tool
    call nor a tool result, and either has a plain role without content or
    has another role. *)
Definition rejected (msg : LLMMessage.t) : Prop :=
  LLMMessage.tool_call msg = None
  /\ LLMMessage.tool_result msg = None
  /\ ((plain_role (LLMMessage.role msg)
       /\ lacks_content (LLMMessage.content msg))
      \/ ~ plain_role (LLMMessage.role msg)).

(** The stored history. *)
Definition history (st : State) : list ChatCompletionMessageParam.t :=
  AzureClient.message_history (self st).

(** The state once [chat] has stored the translated messages. *)
Definition with_history
    (st : State) (records : list ChatCompletionMessageParam.t) : State :=
  {| self := AzureClient.with_message_history (self st) records;
     world := world st;
     network := network st |}.

(** The history [chat] sends: the stored one extended, or replaced. *)
Definition entered_history
    (reuse_history : bool) (st : State)
    (records : list ChatCompletionMessageParam.t)
    : list ChatCompletionMessageParam.t :=
  if reuse_history then history st ++ records else records.

(** The tool-result content as the specification words it: the result
    text, with the failure line and the error text appended when an error
    is present, the whole trimmed. *)
Definition spec_tool_result_content (tool_result : ToolResult.t) : string :=
  Py.strip
    (match ToolResult.result tool_result with
     | Some text => text
     | None => EmptyString
     end
     ++
     match ToolResult.error tool_result with
     | Some error => ("Tool call failed with error:" ++ Py.LF) ++ error
     | None => EmptyString
     end)%string.

(** A text that is given and not empty. *)
Definition present (field : option string) (text : string) : Prop :=
  field = Some text /\ text <> EmptyString.

(** The tool-result content, case by case: the result text and the failure
    line with the error text, each only when present, a line feed between
    the two, the whole trimmed. *)
Definition tool_content_of (tool_result : ToolResult.t) (content : string)
    : Prop :=
  (forall text error,
     present (ToolResult.result tool_result) text ->
     present (ToolResult.error tool_result) error ->
     content =
       Py.strip (text ++ Py.LF ++ "Tool call failed with error:" ++ Py.LF
                   ++ error)%string)
  /\ (forall text,
        present (ToolResult.result tool_result) text ->
        lacks_content (ToolResult.error tool_result) ->
        content = Py.strip text)
  /\ (forall error,
        lacks_content (ToolResult.result tool_result) ->
        present (ToolResult.error tool_result) error ->
        content =
          Py.strip ("Tool call failed with error:" ++ Py.LF ++ error)%string)
  /\ (lacks_content (ToolResult.result tool_result) ->
      lacks_content (ToolResult.error tool_result) ->
      content = EmptyString).

(** The record a message is translated to, by payload kind. *)
Definition translated
    (msg : LLMMessage.t) (record : ChatCompletionMessageParam.t) : Prop :=
  match LLMMessage.tool_call msg, LLMMessage.tool_result msg with
  | Some tool_call, _ =>
      record =
        ChatCompletionMessageParam.mk
          "function"
          (json_dumps
             (JDict [("name", JStr (ToolCall.name tool_call));
                     ("arguments", ToolCall.arguments tool_call)]))
          (Some (ToolCall.name tool_call)) None None
  | None, Some tool_result =>
      exists content,
        tool_content_of tool_result content
        /\ record =
             ChatCompletionMessageParam.mk
               "tool" content None (Some (ToolResult.call_id tool_result)) None
  | None, None =>
      exists content,
        present (LLMMessage.content msg) content
        /\ plain_role (LLMMessage.role msg)
        /\ record =
             ChatCompletionMessageParam.mk
               (LLMMessage.role msg) content None None None
  end.



Definition failed (a : Attempt) : Prop :=
  exists detail, outcome a = inl detail.

(** The schemas [chat] sends for the tools it is given. *)
Definition schemas_for (tools : option (list Tool.t))
    : option (list ChatCompletionToolParam.t) :=
  match tools with
  | Some (tool :: rest) => Some (map tool_schema (tool :: rest))
  | _ => None
  end.

(** The records [chat] appends for the assistant's turn. *)
Definition assistant_turn (llm_response : LLMResponse.t)
    : list ChatCompletionMessageParam.t :=
  match LLMResponse.tool_calls llm_response with
  | Some (tool_call :: rest) =>
      [ChatCompletionAssistantMessageParam
         "assistant"
         (LLMResponse.content llm_response)
         (Some (map tool_call_param (tool_call :: rest)))]
  | _ =>
      match LLMResponse.content llm_response with
      | String c rest =>
          [ChatCompletionAssistantMessageParam "assistant" (String c rest) None]
      | EmptyString => []
      end
  end.

(** The request [_create_azure_response] makes in a state. *)
Definition request_in
    (args : ModelParameters.t * option (list ChatCompletionToolParam.t))
    (st : State) : Request.t :=
  Request.mk
    (ModelParameters.model (fst args))
    (history st)
    (if Py.truthy_list (snd args) then snd args else None)
    (ModelParameters.temperature (fst args))
    (ModelParameters.top_p (fst args))
    (ModelParameters.max_tokens (fst args))
    1%Z.

(** The retry-wrapped call of [chat], as [chat] makes it. *)
Definition wrapped_call
    (model_parameters : ModelParameters.t) (tools : option (list Tool.t))
    : M ChatCompletion.t :=
  retry_with _create_azure_response "Azure OpenAI"
    (ModelParameters.max_retries model_parameters)
    (model_parameters, schemas_for tools).

End Vocabulary.

(** ** A scripted environment, for concrete runs *)

Module Scripted.

Definition quote : string := String "034"%char EmptyString.

Definition backslash : string := String "092"%char EmptyString.

(** Quotes and backslashes escaped; the strings of the examples hold no
    other character that [json.dumps] escapes. *)
Fixpoint escape (s : string) : string :=
  match s with
  | EmptyString => EmptyString
  | String c rest =>
      if (c =? "034")%char then (backslash ++ quote ++ escape rest)%string
      else if (c =? "092")%char then
        (backslash ++ backslash ++ escape rest)%string
      else String c (escape rest)
  end.

Definition join (parts : list string) : string :=
  match parts with
  | [] => EmptyString
  | first :: others =>
      fold_left (fun acc part => (acc ++ ", " ++ part)%string) others first
  end.

(** A serializer in the default layout of [json.dumps]. *)
Fixpoint dumps (v : json) : string :=
  match v with
  | JNull => "null"
  | JBool true => "true"
  | JBool false => "false"
  | JInt z => NilZero.string_of_int (Z.to_int z)
  | JStr s => (quote ++ escape s ++ quote)%string
  | JList items => ("[" ++ join (map dumps items) ++ "]")%string
  | JDict items =>
      ("{"
         ++ join (map (fun item =>
                         (quote ++ escape (fst item) ++ quote ++ ": "
                            ++ dumps (snd item))%string) items)
         ++ "}")%string
  end.

(** A decoder for the one document the examples receive. *)
Definition loads (doc : string) : option json :=
  if (doc =? "{}")%string then Some (JDict []) else None.

(** The provider answers from a script, one entry per call, and refuses
    the connection once the script is used up; the recorder never fails. *)
Definition collaborators : Collaborators :=
  {| World := list (string + ChatCompletion.t);
     json_dumps := dumps;
     json_loads := loads;
     completions_create := fun _ _ script =>
       match script with
       | answer :: rest => (answer, rest)
       | [] => (inl "connection refused", [])
       end;
     record_llm_interaction := fun _ _ script => (None, script) |}.

Definition parameters (model : string) (max_retries : Z) : ModelParameters.t :=
  ModelParameters.mk model "key" 1000 0.5%float 1%float 0 false max_retries
    (Some "https://example.openai.azure.com") (Some "2024-03-01-preview").

Definition endpoint : AzureOpenAI.t :=
  AzureOpenAI.mk "https://example.openai.azure.com"
    (Some "2024-03-01-preview") "key".

(** A freshly constructed client facing the given script. *)
Definition fresh (script : list (string + ChatCompletion.t))
    : State (C := collaborators) :=
  @Build_State collaborators
    (AzureClient.mk "key" (Some "https://example.openai.azure.com")
       (Some "2024-03-01-preview") None endpoint [])
    script
    [].

Definition user (text : string) : LLMMessage.t :=
  LLMMessage.mk "user" (Some text) None None.

(** A completion with one choice. *)
Definition completion
    (content : option string)
    (tool_calls : option (list ChatCompletionMessageToolCall.t))
    (usage : option CompletionUsage.t) : ChatCompletion.t :=
  ChatCompletion.mk
    [Choice.mk (ChatCompletionMessage.mk content tool_calls) "stop"]
    "gpt-4o" usage.

Definition bash_call : ChatCompletionMessageToolCall.t :=
  ChatCompletionMessageToolCall.mk "call_1" (FunctionCall.mk "bash" "{}").

(** An answer asking for the tool, with a prompt count and no completion
    count. *)
Definition tool_reply : ChatCompletion.t :=
  completion (Some "running") (Some [bash_call])
    (Some (CompletionUsage.mk (Some 12%Z) None)).

(** The state after [chat] on a user message, two retries allowed, the
    provider failing once and then asking for the tool. *)
Definition after_tool_reply : State (C := collaborators) :=
  snd (chat (C := collaborators) [user "hi"] (parameters "gpt-4o" 2) None true
         (fresh [inl "timeout"; inr tool_reply])).

(** The state after [chat] on a user message, one retry allowed, the
    provider failing twice. *)
Definition after_two_failures : State (C := collaborators) :=
  snd (chat (C := collaborators) [user "hi"] (parameters "gpt-4o" 1) None true
         (fresh [inl "timeout"; inl "overloaded"; inr tool_reply])).

(** The outcome of a tool that printed [ok] and then failed with [bad]. *)
Definition ok_then_bad : ToolResult.t :=
  ToolResult.mk "call_1" (Some "ok") (Some "bad").

Definition tool_outcome (tool_result : ToolResult.t) : LLMMessage.t :=
  LLMMessage.mk "user" None None (Some tool_result).

Definition tool_request (tool_call : ToolCall.t) : LLMMessage.t :=
  LLMMessage.mk "assistant" None (Some tool_call) None.

End Scripted.


(** ** Vocabulary of the further properties *)

Section FurtherVocabulary.

Context {C : Collaborators}.

(** Two clients that differ at most in the stored history. *)
Definition same_configuration (client client' : AzureClient.t) : Prop :=
  AzureClient.api_key client' = AzureClient.api_key client
  /\ AzureClient.base_url client' = AzureClient.base_url client
  /\ AzureClient.api_version client' = AzureClient.api_version client
  /\ AzureClient.trajectory_recorder client'
     = AzureClient.trajectory_recorder client
  /\ AzureClient.client client' = AzureClient.client client.

(** The shapes of the records the client stores: a function record has a
    name, a tool record a [tool_call_id], a system or user record content,
    and an assistant record either content and no tool calls or a non-empty
    list of tool calls of type [function]. *)
Definition well_formed (record : ChatCompletionMessageParam.t) : Prop :=
  (ChatCompletionMessageParam.role record = "function"
   /\ ChatCompletionMessageParam.name record <> None
   /\ ChatCompletionMessageParam.tool_call_id record = None
   /\ ChatCompletionMessageParam.tool_calls record = None)
  \/ (ChatCompletionMessageParam.role record = "tool"
      /\ ChatCompletionMessageParam.name record = None
      /\ ChatCompletionMessageParam.tool_call_id record <> None
      /\ ChatCompletionMessageParam.tool_calls record = None)
  \/ ((ChatCompletionMessageParam.role record = "system"
       \/ ChatCompletionMessageParam.role record = "user")
      /\ ChatCompletionMessageParam.content record <> EmptyString
      /\ ChatCompletionMessageParam.name record = None
      /\ ChatCompletionMessageParam.tool_call_id record = None
      /\ ChatCompletionMessageParam.tool_calls record = None)
  \/ (ChatCompletionMessageParam.role record = "assistant"
      /\ ChatCompletionMessageParam.name record = None
      /\ ChatCompletionMessageParam.tool_call_id record = None
      /\ ((ChatCompletionMessageParam.tool_calls record = None
           /\ ChatCompletionMessageParam.content record <> EmptyString)
          \/ exists entry entries,
              ChatCompletionMessageParam.tool_calls record
              = Some (entry :: entries)
              /\ Forall (fun e => ChatCompletionMessageToolCallParam.type e
                                  = "function") (entry :: entries))).

(** A provider tool call whose arguments are given and do not decode. *)
Definition undecodable (tool_call : ChatCompletionMessageToolCall.t) : Prop :=
  FunctionCall.arguments (ChatCompletionMessageToolCall.function tool_call)
  <> EmptyString
  /\ json_loads
       (FunctionCall.arguments
          (ChatCompletionMessageToolCall.function tool_call))
     = None.

(** A provider tool call and the [ToolCall] it is read as: same identifier
    and name, the arguments decoded, an empty document read as the empty
    dictionary. *)
Definition read_as
    (tool_call : ChatCompletionMessageToolCall.t) (call : ToolCall.t) : Prop :=
  ToolCall.call_id call = ChatCompletionMessageToolCall.id tool_call
  /\ ToolCall.name call
     = FunctionCall.name (ChatCompletionMessageToolCall.function tool_call)
  /\ (FunctionCall.arguments
        (ChatCompletionMessageToolCall.function tool_call) = EmptyString ->
      ToolCall.arguments call = JDict [])
  /\ (FunctionCall.arguments
        (ChatCompletionMessageToolCall.function tool_call) <> EmptyString ->
      json_loads
        (FunctionCall.arguments
           (ChatCompletionMessageToolCall.function tool_call))
      = Some (ToolCall.arguments call)).

Definition first_char (s : string) : option ascii :=
  match s with
  | EmptyString => None
  | String c _ => Some c
  end.

Fixpoint last_char (s : string) : option ascii :=
  match s with
  | EmptyString => None
  | String c EmptyString => Some c
  | String _ rest => last_char rest
  end.

(** A text that neither starts nor ends with a character [str.strip]
    removes. *)
Definition trimmed (s : string) : Prop :=
  (forall c, first_char s = Some c -> Py.isspace c = false)
  /\ (forall c, last_char s = Some c -> Py.isspace c = false).

(** The schema sent for one tool. *)
Definition advertised (tool : Tool.t) (schema : ChatCompletionToolParam.t)
    : Prop :=
  ChatCompletionToolParam.type schema = "function"
  /\ FunctionDefinition.name (ChatCompletionToolParam.function schema)
     = Tool.get_name tool
  /\ FunctionDefinition.description (ChatCompletionToolParam.function schema)
     = Tool.get_description tool
  /\ FunctionDefinition.parameters (ChatCompletionToolParam.function schema)
     = Tool.get_input_schema tool.


End FurtherVocabulary.

(** ** Further scripted scenarios *)

Module Scenario.



Definition search_tool : Tool.t :=
  Tool.mk "search" "Search the repository" (JDict [("type", JStr "object")]).

(** An answer whose tool call has arguments that are not JSON. *)
Definition garbled_reply : ChatCompletion.t :=
  Scripted.completion None
    (Some [ChatCompletionMessageToolCall.mk "call_2"
             (FunctionCall.mk "bash" "{oops")])
    None.

(** An answer without choices. *)
Definition no_choice_reply : ChatCompletion.t :=
  ChatCompletion.mk [] "gpt-4o" None.

(** An SDK whose constructor accepts every configuration. *)
Definition lenient_sdk : AzureSDK :=
  {| new_AzureOpenAI := fun endpoint version key =>
       inr (AzureOpenAI.mk endpoint version key) |}.

(** The SDK in an environment that names no API version: its constructor
    raises when the configuration gives none either. *)
Definition strict_sdk : AzureSDK :=
  {| new_AzureOpenAI := fun endpoint version key =>
       match version with
       | Some v => inr (AzureOpenAI.mk endpoint (Some v) key)
       | None =>
           inl "Must provide either the api_version argument or the OPENAI_API_VERSION environment variable"
       end |}.

(** A configuration with a base URL and no API version. *)
Definition unversioned : ModelParameters.t :=
  ModelParameters.mk "gpt-4o" "key" 1000 0.5%float 1%float 0 false 3
    (Some "https://example.openai.azure.com") None.

End Scenario.


(** * Properties *)

(** ** The translation of messages *)

Section Translation.

Context {C : Collaborators}.

Lemma rstrip_line_feed (s : string) :
  Py.rstrip (s ++ Py.LF) = Py.rstrip s.
Proof.
  induction s as [|c rest IH]; simpl.
  - reflexivity.
  - rewrite IH. reflexivity.
Qed.

Lemma strip_line_feed (s : string) : Py.strip (s ++ Py.LF) = Py.strip s.
Proof. unfold Py.strip. now rewrite rstrip_line_feed. Qed.

Lemma string_append_assoc (a b c : string) :
  ((a ++ b) ++ c = a ++ (b ++ c))%string.
Proof. induction a as [|x a IH]; simpl; [reflexivity | now rewrite IH]. Qed.

(** The loop returns the records of the messages, in order, after those it
    started with. *)
Lemma parse_messages_loop_ok (messages : list LLMMessage.t) :
  forall azure_messages out,
    parse_messages_loop messages azure_messages = Ok out <->
    exists records,
      Forall2 (fun msg record => parse_message msg = Ok record) messages records
      /\ out = azure_messages ++ records.
Proof.
  induction messages as [|msg rest IH]; intros acc out; simpl.
  - split.
    + intros H. injection H as <-. exists []. split; [constructor|].
      now rewrite app_nil_r.
    + intros (records & HF & ->). inversion HF; subst.
      now rewrite app_nil_r.
  - destruct (parse_message msg) as [record|e] eqn:Hmsg.
    + rewrite IH. split.
      * intros (records & HF & ->). exists (record :: records). split.
        -- now constructor.
        -- now rewrite <- app_assoc.
      * intros (records & HF & ->). inversion HF as [|? r ? rs Hr HF']; subst.
        assert (r = record) by congruence. subst r.
        exists rs. split; [assumption|]. now rewrite <- app_assoc.
    + split; [discriminate|].
      intros (records & HF & _). inversion HF; subst. congruence.
Qed.

(** The loop raises the error of the first message that has one. *)
Lemma parse_messages_loop_raise (messages : list LLMMessage.t) :
  forall azure_messages e,
    parse_messages_loop messages azure_messages = Raise e <->
    exists before msg after,
      messages = before ++ msg :: after
      /\ Forall (fun m => exists record, parse_message m = Ok record) before
      /\ parse_message msg = Raise e.
Proof.
  induction messages as [|msg rest IH]; intros acc e; simpl.
  - split; [discriminate|].
    intros (before & m & after & H & _). now destruct before.
  - destruct (parse_message msg) as [record|e'] eqn:Hmsg.
    + rewrite IH. split.
      * intros (before & m & after & -> & HF & Hm).
        exists (msg :: before), m, after. repeat split; try assumption.
        constructor; [now exists record | assumption].
      * intros (before & m & after & Heq & HF & Hm).
        destruct before as [|b before]; simpl in Heq.
        -- injection Heq as <- <-. congruence.
        -- injection Heq as <- ->. inversion HF; subst.
           now exists before, m, after.
    + split.
      * intros H. injection H as <-. exists [], msg, rest.
        repeat split; [constructor | assumption].
      * intros (before & m & after & Heq & HF & Hm).
        destruct before as [|b before]; simpl in Heq.
        -- injection Heq as <- <-. congruence.
        -- injection Heq as <- ->. inversion HF as [|? ? [r Hr] ?]; subst.
           congruence.
Qed.

Lemma plain_role_dec (role : string) : {plain_role role} + {~ plain_role role}.
Proof.
  unfold plain_role.
  destruct (string_dec role "system"); [now left; left|].
  destruct (string_dec role "user"); [now left; right; left|].
  destruct (string_dec role "assistant"); [now left; right; right|].
  right. intros [H | [H | H]]; contradiction.
Qed.

(** One message is refused exactly when the specification rejects it. *)
Lemma parse_message_raise_iff (msg : LLMMessage.t) :
  (exists e, parse_message msg = Raise e) <-> rejected msg.
Proof.
  unfold parse_message, rejected, plain_role, lacks_content.
  destruct msg as [role content tool_call tool_result]; simpl.
  destruct tool_call as [tc|].
  { split; [intros [e H]; discriminate | intros (H & _); discriminate]. }
  destruct tool_result as [tr|].
  { split; [intros [e H]; discriminate | intros (_ & H & _); discriminate]. }
  destruct (String.eqb_spec role "system") as [-> | Hsys].
  { destruct content as [[|c rest]|]; split;
      try (intros [e H]; discriminate); eauto 10.
    intros (_ & _ & [[_ [H | H]] | H]); try discriminate.
    exfalso. apply H. now left. }
  destruct (String.eqb_spec role "user") as [-> | Husr].
  { destruct content as [[|c rest]|]; split;
      try (intros [e H]; discriminate); eauto 10.
    intros (_ & _ & [[_ [H | H]] | H]); try discriminate.
    exfalso. apply H. now right; left. }
  destruct (String.eqb_spec role "assistant") as [-> | Hast].
  { destruct content as [[|c rest]|]; split;
      try (intros [e H]; discriminate); eauto 10.
    intros (_ & _ & [[_ [H | H]] | H]); try discriminate.
    exfalso. apply H. now right; right. }
  split; [|eauto].
  intros _. repeat split. right. intros [H | [H | H]]; contradiction.
Qed.

Lemma parse_message_total (msg : LLMMessage.t) :
  (exists record, parse_message msg = Ok record)
  \/ (exists e, parse_message msg = Raise e).
Proof. destruct (parse_message msg); eauto. Qed.




Lemma parse_messages_raise_iff (messages : list LLMMessage.t) :
  (exists e, parse_messages messages = Raise e) <-> Exists rejected messages.
Proof.
  unfold parse_messages. split.
  - intros [e H]. apply parse_messages_loop_raise in H.
    destruct H as (before & msg & after & -> & _ & Hmsg).
    apply Exists_app. right. constructor.
    apply parse_message_raise_iff. eauto.
  - induction 1 as [msg rest Hrej | msg rest Hex IH].
    + apply parse_message_raise_iff in Hrej. destruct Hrej as [e He].
      exists e. simpl. now rewrite He.
    + destruct IH as [e He].
      apply parse_messages_loop_raise in He.
      destruct (parse_message msg) as [record|e'] eqn:Hmsg.
      * exists e. apply parse_messages_loop_raise.
        destruct He as (before & m & after & -> & HF & Hm).
        exists (msg :: before), m, after. repeat split; try assumption.
        constructor; eauto.
      * exists e'. simpl. now rewrite Hmsg.
Qed.

Lemma parse_messages_ok_or_raise (messages : list LLMMessage.t) :
  (exists records, parse_messages messages = Ok records)
  \/ (exists e, parse_messages messages = Raise e).
Proof. destruct (parse_messages messages); eauto. Qed.

End Translation.

(** ** The structure of a [chat] call *)

Section ChatStructure.

Context {C : Collaborators}.

Lemma with_history_same (st : State) : with_history st (history st) = st.
Proof. destruct st as [[? ? ? ? ? ?] ? ?]. reflexivity. Qed.

Lemma history_with_history (st : State) records :
  history (with_history st records) = records.
Proof. reflexivity. Qed.

Lemma network_with_history (st : State) records :
  network (with_history st records) = network st.
Proof. reflexivity. Qed.

(** One call of the provider: [self] is untouched, the log grows by the one
    attempt, whose request carries the stored history. *)
Lemma create_step args (st st' : State) (r : result ChatCompletion.t) :
  _create_azure_response args st = (r, st') ->
  self st' = self st
  /\ exists a,
      network st' = network st ++ [a]
      /\ Request.messages (request a) = history st
      /\ Request.model (request a) = ModelParameters.model (fst args)
      /\ Request.n (request a) = 1%Z
      /\ match r with
         | Ok completion => outcome a = inr completion
         | Raise e => exists detail, outcome a = inl detail
                                     /\ e = ProviderError detail
         end.
Proof.
  destruct args as [mp schemas]. unfold _create_azure_response.
  destruct (completions_create _ _ _) as [out w'] eqn:Hcall.
  intros H. injection H as <- <-. simpl. split; [reflexivity|].
  eexists. split; [reflexivity|]. simpl. repeat split.
  destruct out as [detail|completion]; eauto.
Qed.

(** The retry loop around the provider call. *)
Lemma retry_create args (n : nat) :
  forall (st st' : State) (r : result ChatCompletion.t),
    retry_loop (_create_azure_response args) n st = (r, st') ->
    self st' = self st
    /\ exists earlier a,
        network st' = network st ++ earlier ++ [a]
        /\ length earlier <= n
        /\ Forall failed earlier
        /\ Forall (fun x => Request.messages (request x) = history st
                            /\ Request.model (request x)
                               = ModelParameters.model (fst args)
                            /\ Request.n (request x) = 1%Z)
             (earlier ++ [a])
        /\ match r with
           | Ok completion => outcome a = inr completion
           | Raise e =>
               length earlier = n
               /\ exists detail, outcome a = inl detail
                                 /\ e = ProviderError detail
           end.
Proof.
  induction n as [|n IH]; intros st st' r; simpl;
    destruct (_create_azure_response args st) as [[completion|e] st1] eqn:Hstep;
    apply create_step in Hstep;
    destruct Hstep as (Hself & a & Hnet & Hmsgs & Hmodel & Hn & Hout).
  - intros H. injection H as <- <-. split; [assumption|].
    exists [], a. simpl. repeat split; auto.
  - intros H. injection H as <- <-. split; [assumption|].
    exists [], a. simpl. repeat split; auto.
  - intros H. injection H as <- <-. split; [assumption|].
    exists [], a. simpl. repeat split; auto with arith.
  - intros H. apply IH in H.
    destruct H as (Hself' & earlier & b & Hnet' & Hlen & Hfailed & Hreqs & Hr).
    split; [congruence|].
    exists (a :: earlier), b. simpl. repeat split.
    + rewrite Hnet', Hnet, <- app_assoc. reflexivity.
    + lia.
    + constructor; [|assumption].
      destruct Hout as (detail & Hd & _). now exists detail.
    + constructor; [auto|].
      unfold history in *. rewrite Hself in Hreqs. exact Hreqs.
    + destruct r as [completion|e']; [assumption|].
      destruct Hr as (Hl & Hd). split; [lia | assumption].
Qed.

(** The assistant's turn is appended and nothing raised. *)
Lemma update_message_history_spec (llm_response : LLMResponse.t) (st : State) :
  update_message_history llm_response st =
    (Ok tt, with_history st (history st ++ assistant_turn llm_response)).
Proof.
  unfold update_message_history, assistant_turn, append_message_history,
    bind, get_message_history, set_message_history, ret, with_history, history.
  destruct (LLMResponse.tool_calls llm_response) as [[|tc rest]|];
    try reflexivity;
    destruct (LLMResponse.content llm_response); simpl;
    rewrite ?app_nil_r; try reflexivity;
    destruct st as [[? ? ? ? ? ?] ? ?]; reflexivity.
Qed.

(** Recording touches neither [self] nor the log of provider calls. *)
Lemma record_interaction_spec messages llm_response mp tools
    (st st' : State) (r : result unit) :
  record_interaction messages llm_response mp tools st = (r, st') ->
  self st' = self st /\ network st' = network st
  /\ match r with
     | Ok _ => True
     | Raise e => exists detail, e = RecorderError detail
     end.
Proof.
  unfold record_interaction.
  destruct (AzureClient.trajectory_recorder (self st)) as [rec|].
  - destruct (record_llm_interaction _ _ _) as [[detail|] w'];
      intros H; injection H as <- <-; simpl; eauto.
  - intros H. injection H as <- <-. auto.
Qed.

(** A rejected list stops [chat] at once, the state as it was. *)
Lemma chat_parse_error messages mp tools reuse (st : State) (e : exception) :
  parse_messages messages = Raise e ->
  chat messages mp tools reuse st = (Raise e, st).
Proof. intros H. unfold chat, bind, lift. now rewrite H. Qed.

(** The steps of [chat] after a successful translation. *)
Lemma chat_parsed messages records mp tools reuse (st : State) :
  parse_messages messages = Ok records ->
  chat messages mp tools reuse st =
    match wrapped_call mp tools
            (with_history st (entered_history reuse st records)) with
    | (Raise e, st2) => (Raise e, st2)
    | (Ok response, st2) =>
        match first_choice response with
        | Raise e => (Raise e, st2)
        | Ok choice =>
            match extract_tool_calls choice with
            | Raise e => (Raise e, st2)
            | Ok tool_calls =>
                let llm_response :=
                  build_llm_response response choice tool_calls in
                match
                  record_interaction messages llm_response mp tools
                    (with_history st2
                       (history st2 ++ assistant_turn llm_response))
                with
                | (Ok _, st4) => (Ok llm_response, st4)
                | (Raise e, st4) => (Raise e, st4)
                end
            end
        end
    end.
Proof.
  intros H. unfold chat, bind, lift. rewrite H.
  destruct reuse; simpl;
    match goal with
    | |- context [retry_with ?f ?label ?n ?a ?st1] =>
        match goal with
        | |- context [wrapped_call mp tools ?st1'] =>
            change (retry_with f label n a st1) with (wrapped_call mp tools st1')
        end
    end;
    (destruct (wrapped_call mp tools _) as [[response|e] st2];
     [|reflexivity]);
    (destruct (first_choice response) as [choice|e]; [|reflexivity]);
    (destruct (extract_tool_calls choice) as [tool_calls|e]; [|reflexivity]);
    rewrite update_message_history_spec;
    destruct (record_interaction _ _ _ _ _) as [[[]|e] st4]; reflexivity.
Qed.

End ChatStructure.

Section ChatOutcomes.

Context {C : Collaborators}.

Lemma wrapped_call_spec mp tools (st st' : State) r :
  wrapped_call mp tools st = (r, st') ->
  self st' = self st
  /\ exists earlier a,
      network st' = network st ++ earlier ++ [a]
      /\ length earlier <= Z.to_nat (ModelParameters.max_retries mp)
      /\ Forall failed earlier
      /\ Forall (fun x => Request.messages (request x) = history st
                          /\ Request.model (request x) = ModelParameters.model mp
                          /\ Request.n (request x) = 1%Z)
           (earlier ++ [a])
      /\ match r with
         | Ok completion => outcome a = inr completion
         | Raise e =>
             length earlier = Z.to_nat (ModelParameters.max_retries mp)
             /\ exists detail, outcome a = inl detail
                               /\ e = ProviderError detail
         end.
Proof.
  unfold wrapped_call, retry_with. intros H.
  apply retry_create in H. exact H.
Qed.

Lemma first_choice_raise response e :
  first_choice response = Raise e -> exists text, e = IndexError text.
Proof.
  unfold first_choice. destruct (ChatCompletion.choices response);
    intros H; [injection H as <-; eauto | discriminate].
Qed.

Lemma to_ToolCall_raise tool_call e :
  to_ToolCall tool_call = Raise e -> exists doc, e = JSONDecodeError doc.
Proof.
  unfold to_ToolCall.
  destruct (FunctionCall.arguments _); [discriminate|].
  destruct (json_loads _); [discriminate|].
  intros H. injection H as <-. eauto.
Qed.

Lemma tool_calls_loop_raise provider_calls :
  forall tool_calls e,
    tool_calls_loop provider_calls tool_calls = Raise e ->
    exists doc, e = JSONDecodeError doc.
Proof.
  induction provider_calls as [|pc rest IH]; intros acc e; simpl.
  - discriminate.
  - destruct (to_ToolCall pc) as [call|e'] eqn:Hcall.
    + apply IH.
    + intros H. injection H as <-. eapply to_ToolCall_raise; eauto.
Qed.

Lemma extract_tool_calls_raise choice e :
  extract_tool_calls choice = Raise e -> exists doc, e = JSONDecodeError doc.
Proof.
  unfold extract_tool_calls.
  destruct (ChatCompletionMessage.tool_calls _) as [[|pc rest]|];
    try discriminate.
  destruct (tool_calls_loop _ _) as [calls|e'] eqn:Hloop; [discriminate|].
  intros H. injection H as <-. eapply tool_calls_loop_raise; eauto.
Qed.


(** A successful [chat], step by step. *)
Lemma chat_ok_inv messages mp tools reuse (st st' : State) rsp :
  chat messages mp tools reuse st = (Ok rsp, st') ->
  exists records response choice tool_calls st2,
    parse_messages messages = Ok records
    /\ wrapped_call mp tools
         (with_history st (entered_history reuse st records))
       = (Ok response, st2)
    /\ first_choice response = Ok choice
    /\ extract_tool_calls choice = Ok tool_calls
    /\ rsp = build_llm_response response choice tool_calls
    /\ history st' = entered_history reuse st records ++ assistant_turn rsp
    /\ network st' = network st2.
Proof.
  destruct (parse_messages messages) as [records|e] eqn:Hparse.
  2:{ rewrite (chat_parse_error _ _ _ _ _ _ Hparse). discriminate. }
  rewrite (chat_parsed _ _ _ _ _ _ Hparse).
  destruct (wrapped_call _ _ _) as [[response|e1] st2] eqn:Hcall;
    [|discriminate].
  destruct (first_choice response) as [choice|e2] eqn:Hchoice; [|discriminate].
  destruct (extract_tool_calls choice) as [tool_calls|e3] eqn:Hcalls;
    [|discriminate].
  cbv zeta.
  destruct (record_interaction _ _ _ _ _) as [[[]|e4] st4] eqn:Hrec;
    intros H; [|discriminate]. injection H as <- <-.
  apply record_interaction_spec in Hrec. destruct Hrec as (Hself & Hnet & _).
  apply wrapped_call_spec in Hcall as Hcall'. destruct Hcall' as (Hself2 & _).
  exists records, response, choice, tool_calls, st2.
  repeat split; try assumption; try reflexivity.
  unfold history at 1. rewrite Hself. simpl.
  unfold history. rewrite Hself2. reflexivity.
Qed.

Lemma set_chat_history_spec messages (st : State) :
  set_chat_history messages st =
    match parse_messages messages with
    | Ok records => (Ok tt, with_history st records)
    | Raise e => (Raise e, st)
    end.
Proof.
  unfold set_chat_history, bind, lift.
  destruct (parse_messages messages); reflexivity.
Qed.


End ChatOutcomes.

(** ** Validation errors *)

Section Validation.

Context {C : Collaborators}.


End Validation.

(** A system message without content is refused, and not dropped. *)
Example empty_system_message_refused :
  parse_messages (C := Scripted.collaborators)
    [Scripted.user "hi"; LLMMessage.mk "system" (Some EmptyString) None None]
  = Raise (ValueError "System message content is required").
Proof. reflexivity. Qed.

(** A role that is none of the three is refused by name. *)
Example unknown_role_refused :
  parse_messages (C := Scripted.collaborators)
    [LLMMessage.mk "moderator" (Some "hi") None None]
  = Raise (ValueError "Invalid message role: moderator").
Proof. reflexivity. Qed.

(** [chat] on a refused list: the script is not consumed, the log and the
    history stay empty. *)
Example chat_refused_before_the_provider :
  chat (C := Scripted.collaborators)
    [LLMMessage.mk "user" None None None] (Scripted.parameters "gpt-4o" 2)
    None true (Scripted.fresh [inr Scripted.tool_reply])
  = (Raise (ValueError "User message content is required"),
     Scripted.fresh [inr Scripted.tool_reply]).
Proof. reflexivity. Qed.

(** ** The translation, by payload kind *)

Section TranslationByKind.

Context {C : Collaborators}.

Lemma tool_result_content_cases (tool_result : ToolResult.t) :
  tool_content_of tool_result (tool_result_content tool_result).
Proof.
  unfold tool_content_of, tool_result_content, present, lacks_content.
  destruct tool_result as [call_id result error]; simpl.
  repeat split.
  - intros text err [-> Ht] [-> He].
    destruct text as [|c rest]; [contradiction|].
    destruct err as [|c' rest']; [contradiction|].
    simpl. now rewrite !string_append_assoc.
  - intros text [-> Ht] He.
    destruct text as [|c rest]; [contradiction|].
    destruct He as [-> | ->]; simpl;
      exact (strip_line_feed (String c rest)).
  - intros err Hr [-> He].
    destruct err as [|c' rest']; [contradiction|].
    destruct Hr as [-> | ->]; reflexivity.
  - intros [-> | ->] [-> | ->]; reflexivity.
Qed.

Lemma parse_message_translated msg record :
  parse_message msg = Ok record -> translated msg record.
Proof.
  unfold parse_message, translated, present, plain_role.
  destruct (LLMMessage.tool_call msg) as [tc|].
  { intros H. injection H as <-. reflexivity. }
  destruct (LLMMessage.tool_result msg) as [tr|].
  { intros H. injection H as <-. eexists. split; [|reflexivity].
    apply tool_result_content_cases. }
  destruct (String.eqb_spec (LLMMessage.role msg) "system") as [Hs|_].
  { destruct (LLMMessage.content msg) as [[|c rest]|]; try discriminate.
    intros H. injection H as <-. exists (String c rest). rewrite Hs.
    repeat split; auto. discriminate. }
  destruct (String.eqb_spec (LLMMessage.role msg) "user") as [Hu|_].
  { destruct (LLMMessage.content msg) as [[|c rest]|]; try discriminate.
    intros H. injection H as <-. exists (String c rest). rewrite Hu.
    repeat split; auto. discriminate. }
  destruct (String.eqb_spec (LLMMessage.role msg) "assistant") as [Ha|_].
  { destruct (LLMMessage.content msg) as [[|c rest]|]; try discriminate.
    intros H. injection H as <-. exists (String c rest). rewrite Ha.
    repeat split; auto. discriminate. }
  discriminate.
Qed.

Lemma parse_messages_ok messages records :
  parse_messages messages = Ok records <->
  Forall2 (fun msg record => parse_message msg = Ok record) messages records.
Proof.
  unfold parse_messages. rewrite parse_messages_loop_ok. simpl. split.
  - intros (rs & HF & ->). exact HF.
  - intros HF. eauto.
Qed.

Lemma parse_messages_accepts messages :
  Forall (fun msg => ~ rejected msg) messages ->
  exists records, parse_messages messages = Ok records.
Proof.
  intros HF. destruct (parse_messages messages) as [records|e] eqn:Hparse;
    [eauto|].
  exfalso. assert (Hex : Exists rejected messages).
  { apply parse_messages_raise_iff. eauto. }
  apply Exists_exists in Hex. destruct Hex as (msg & Hin & Hrej).
  rewrite Forall_forall in HF. exact (HF msg Hin Hrej).
Qed.

(** C2, as amended. Each message is translated by payload kind: one with a
    tool call becomes a function-role record whose content is the JSON
    encoding of the name and the arguments and whose name is the tool's; one
    with a tool result (and no tool call) becomes a tool-role record whose
    content is the result text when it is not empty, then a line feed and
    the failure line with the error text when the error is not empty, the
    whole trimmed; a valid plain message keeps its role and content. A list
    without rejected messages is translated, and the output has the length
    and the order of the input. *)
Theorem parse_messages_by_payload_kind
    (messages : list LLMMessage.t)
    (Hvalid : Forall (fun msg => ~ rejected msg) messages) :
  exists records,
    parse_messages messages = Ok records
    /\ Forall2 translated messages records
    /\ length records = length messages.
Proof.
  destruct (parse_messages_accepts messages Hvalid) as [records Hparse].
  exists records. split; [assumption|].
  apply parse_messages_ok in Hparse. split.
  - eapply Forall2_impl; [|exact Hparse].
    intros msg record. apply parse_message_translated.
  - symmetry. eapply Forall2_length; eauto.
Qed.

End TranslationByKind.

(** A tool call, a failed tool result and a user message, translated. *)
Lemma parse_messages_by_payload_kind_witness :
  exists records,
    parse_messages (C := Scripted.collaborators)
      [Scripted.tool_request (ToolCall.mk "bash" "call_1" (JDict []));
       Scripted.tool_outcome Scripted.ok_then_bad;
       Scripted.user "hi"]
    = Ok records
    /\ Forall2 (translated (C := Scripted.collaborators))
         [Scripted.tool_request (ToolCall.mk "bash" "call_1" (JDict []));
          Scripted.tool_outcome Scripted.ok_then_bad;
          Scripted.user "hi"]
         records
    /\ length records = 3.
Proof.
  apply (parse_messages_by_payload_kind (C := Scripted.collaborators)).
  repeat (apply Forall_cons; [intros (Hc & Hr & _); discriminate|]).
  apply Forall_cons; [|apply Forall_nil].
  intros (_ & _ & [[_ [H | H]] | H]); try discriminate.
  apply H. right. left. reflexivity.
Defined.

(** C2, the claim as worded fails: between a result and the failure line
    the code puts a line feed, which the claim's wording leaves out. *)
Lemma tool_result_content_counterexample :
  parse_messages (C := Scripted.collaborators)
    [Scripted.tool_outcome Scripted.ok_then_bad]
  = Ok [ChatCompletionToolMessageParam
          ("ok" ++ Py.LF ++ "Tool call failed with error:" ++ Py.LF ++ "bad")
          "tool" "call_1"]
  /\ spec_tool_result_content Scripted.ok_then_bad
     = ("okTool call failed with error:" ++ Py.LF ++ "bad")%string
  /\ ("ok" ++ Py.LF ++ "Tool call failed with error:" ++ Py.LF ++ "bad")%string
     <> spec_tool_result_content Scripted.ok_then_bad.
Proof.
  split; [reflexivity|]. split; [reflexivity|]. discriminate.
Qed.

(** ** Precedence among the payloads *)

Section Precedence.

Context {C : Collaborators}.





End Precedence.

(** A message with both payloads, a role of its own and no content: the tool
    call wins. *)
Example tool_call_wins :
  parse_messages (C := Scripted.collaborators)
    [LLMMessage.mk "moderator" None
       (Some (ToolCall.mk "bash" "call_1" (JDict [])))
       (Some Scripted.ok_then_bad)]
  = Ok [ChatCompletionFunctionMessageParam
          (Scripted.dumps
             (JDict [("name", JStr "bash"); ("arguments", JDict [])]))
          "function" "bash"].
Proof. reflexivity. Qed.

(** ** Updates of the stored history *)

Section HistoryUpdates.

Context {C : Collaborators}.

(** Whatever becomes of the call, the provider is asked at least once, each
    time with the entered history, and the stored history starts with it. *)
Lemma chat_sends_entered_history messages records mp tools reuse
    (st st' : State) (r : result LLMResponse.t) :
  parse_messages messages = Ok records ->
  chat messages mp tools reuse st = (r, st') ->
  exists attempts tail,
    attempts <> []
    /\ network st' = network st ++ attempts
    /\ Forall (fun a => Request.messages (request a)
                        = entered_history reuse st records) attempts
    /\ history st' = entered_history reuse st records ++ tail.
Proof.
  intros Hparse. rewrite (chat_parsed _ _ _ _ _ _ Hparse).
  destruct (wrapped_call _ _ _) as [r2 st2] eqn:Hcall.
  apply wrapped_call_spec in Hcall.
  destruct Hcall as (Hself & earlier & a & Hnet & _ & _ & Hreqs & _).
  rewrite network_with_history in Hnet.
  assert (Hsent : Forall (fun a => Request.messages (request a)
                                   = entered_history reuse st records)
                    (earlier ++ [a])).
  { eapply Forall_impl; [|exact Hreqs]. intros x (Hx & _). exact Hx. }
  assert (Hhist : history st2 = entered_history reuse st records).
  { unfold history at 1. rewrite Hself. reflexivity. }
  assert (Hne : earlier ++ [a] <> []) by (now destruct earlier).
  assert (Hstop : forall res, (res, st2) = (r, st') ->
            exists attempts tail,
              attempts <> []
              /\ network st' = network st ++ attempts
              /\ Forall (fun a => Request.messages (request a)
                                  = entered_history reuse st records) attempts
              /\ history st' = entered_history reuse st records ++ tail).
  { intros res H. injection H as <- <-.
    exists (earlier ++ [a]), []. rewrite app_nil_r. auto. }
  destruct r2 as [response|e]; [|apply Hstop].
  destruct (first_choice response) as [choice|e]; [|apply Hstop].
  destruct (extract_tool_calls choice) as [tool_calls|e]; [|apply Hstop].
  cbv zeta.
  destruct (record_interaction _ _ _ _ _) as [r4 st4] eqn:Hrec.
  apply record_interaction_spec in Hrec. destruct Hrec as (Hself4 & Hnet4 & _).
  intros H.
  assert (st4 = st') by (destruct r4 as [[]|]; now injection H). subst st4.
  exists (earlier ++ [a]),
    (assistant_turn (build_llm_response response choice tool_calls)).
  repeat split; try assumption.
  - rewrite Hnet4. simpl. exact Hnet.
  - unfold history at 1. rewrite Hself4. simpl. now rewrite Hhist.
Qed.

(** C3. [set_chat_history] replaces the stored history with the translation
    of the messages and calls no one: the provider's log and the world are
    as before. [chat] with [reuse_history] true sends the stored history
    extended with the translation, and with [reuse_history] false the
    translation alone: every request of the call carries that history, and
    the history stored afterwards starts with it. *)
Theorem history_update_semantics
    (messages : list LLMMessage.t)
    (records : list ChatCompletionMessageParam.t)
    (Hparse : parse_messages messages = Ok records)
    (st : State) :
  (exists st',
     set_chat_history messages st = (Ok tt, st')
     /\ history st' = records
     /\ network st' = network st
     /\ world st' = world st)
  /\ (forall mp tools r st',
        chat messages mp tools true st = (r, st') ->
        exists attempts tail,
          attempts <> []
          /\ network st' = network st ++ attempts
          /\ Forall (fun a => Request.messages (request a)
                              = history st ++ records) attempts
          /\ history st' = (history st ++ records) ++ tail)
  /\ (forall mp tools r st',
        chat messages mp tools false st = (r, st') ->
        exists attempts tail,
          attempts <> []
          /\ network st' = network st ++ attempts
          /\ Forall (fun a => Request.messages (request a) = records) attempts
          /\ history st' = records ++ tail).
Proof.
  split; [|split].
  - exists (with_history st records).
    rewrite set_chat_history_spec, Hparse. auto.
  - intros mp tools r st' H.
    exact (chat_sends_entered_history _ _ _ _ true _ _ _ Hparse H).
  - intros mp tools r st' H.
    exact (chat_sends_entered_history _ _ _ _ false _ _ _ Hparse H).
Qed.

End HistoryUpdates.

(** A user message, translated, against a client holding nothing. *)
Lemma history_update_semantics_witness :
  (exists st',
     set_chat_history [Scripted.user "hi"] (Scripted.fresh []) = (Ok tt, st')
     /\ history st' = [ChatCompletionUserMessageParam "hi" "user"]
     /\ network st' = []
     /\ world st' = [])
  /\ (forall mp tools r st',
        chat [Scripted.user "hi"] mp tools true (Scripted.fresh []) = (r, st') ->
        exists attempts tail,
          attempts <> []
          /\ network st' = [] ++ attempts
          /\ Forall (fun a => Request.messages (request a)
                              = [] ++ [ChatCompletionUserMessageParam "hi" "user"])
               attempts
          /\ history st'
             = ([] ++ [ChatCompletionUserMessageParam "hi" "user"]) ++ tail)
  /\ (forall mp tools r st',
        chat [Scripted.user "hi"] mp tools false (Scripted.fresh []) = (r, st') ->
        exists attempts tail,
          attempts <> []
          /\ network st' = [] ++ attempts
          /\ Forall (fun a => Request.messages (request a)
                              = [ChatCompletionUserMessageParam "hi" "user"])
               attempts
          /\ history st' = [ChatCompletionUserMessageParam "hi" "user"] ++ tail).
Proof.
  apply (history_update_semantics (C := Scripted.collaborators)
           [Scripted.user "hi"] [ChatCompletionUserMessageParam "hi" "user"]).
  reflexivity.
Defined.

(** ** The assistant's turn *)

Section AssistantTurn.

Context {C : Collaborators}.

(** The loop returns one [ToolCall] per provider call, in order, after those
    it started with. *)
Lemma tool_calls_loop_ok provider_calls :
  forall tool_calls out,
    tool_calls_loop provider_calls tool_calls = Ok out ->
    exists calls,
      out = tool_calls ++ calls
      /\ Forall2 (fun pc call => to_ToolCall pc = Ok call) provider_calls calls.
Proof.
  induction provider_calls as [|pc rest IH]; intros acc out; simpl.
  - intros H. injection H as <-. exists []. now rewrite app_nil_r.
  - destruct (to_ToolCall pc) as [call|e] eqn:Hcall; [|discriminate].
    intros H. apply IH in H. destruct H as (calls & -> & HF).
    exists (call :: calls). split; [now rewrite <- app_assoc|].
    now constructor.
Qed.

(** Tool calls are extracted from a non-empty provider list only, one for
    one. *)
Lemma extract_tool_calls_some choice calls :
  extract_tool_calls choice = Ok (Some calls) ->
  exists provider_calls,
    ChatCompletionMessage.tool_calls (Choice.message choice)
    = Some provider_calls
    /\ provider_calls <> []
    /\ Forall2 (fun pc call => to_ToolCall pc = Ok call) provider_calls calls.
Proof.
  unfold extract_tool_calls.
  destruct (ChatCompletionMessage.tool_calls _) as [[|pc rest]|];
    try discriminate.
  destruct (tool_calls_loop _ _) as [out|e] eqn:Hloop; [|discriminate].
  intros H. injection H as <-.
  apply tool_calls_loop_ok in Hloop. destruct Hloop as (calls' & -> & HF).
  exists (pc :: rest). repeat split; [discriminate | exact HF].
Qed.

Lemma extract_tool_calls_nonempty choice calls :
  extract_tool_calls choice = Ok (Some calls) -> calls <> [].
Proof.
  intros H. apply extract_tool_calls_some in H.
  destruct H as (pcs & _ & Hne & HF).
  inversion HF; subst; [contradiction | discriminate].
Qed.

(** C4, as amended. After a successful [chat] the stored history is the
    entered one followed by the assistant's turn: an assistant record with
    the tool calls (identifier, name and JSON-encoded arguments of each)
    when the response has tool calls; an assistant record with the content
    when it has none and the content is not empty; and nothing when it has
    neither. *)
Theorem assistant_turn_appended
    (messages : list LLMMessage.t) (mp : ModelParameters.t)
    (tools : option (list Tool.t)) (reuse : bool)
    (st st' : State) (rsp : LLMResponse.t)
    (Hok : chat messages mp tools reuse st = (Ok rsp, st')) :
  exists records,
    parse_messages messages = Ok records
    /\ (forall calls,
          LLMResponse.tool_calls rsp = Some calls ->
          calls <> []
          /\ history st' =
               entered_history reuse st records
               ++ [ChatCompletionMessageParam.mk
                     "assistant" (LLMResponse.content rsp) None None
                     (Some
                        (map (fun call =>
                                ChatCompletionMessageToolCallParam.mk
                                  (ToolCall.call_id call)
                                  (Function.mk
                                     (ToolCall.name call)
                                     (json_dumps (ToolCall.arguments call)))
                                  "function")
                           calls))])
    /\ (LLMResponse.tool_calls rsp = None ->
        LLMResponse.content rsp <> EmptyString ->
        history st' =
          entered_history reuse st records
          ++ [ChatCompletionMessageParam.mk
                "assistant" (LLMResponse.content rsp) None None None])
    /\ (LLMResponse.tool_calls rsp = None ->
        LLMResponse.content rsp = EmptyString ->
        history st' = entered_history reuse st records).
Proof.
  apply chat_ok_inv in Hok.
  destruct Hok as (records & response & choice & tool_calls & st2
                   & Hparse & _ & _ & Hcalls & -> & Hhist & _).
  exists records. split; [assumption|].
  rewrite Hhist. unfold assistant_turn. simpl. split; [|split].
  - intros calls ->. split.
    + eapply extract_tool_calls_nonempty; eauto.
    + destruct calls as [|call rest]; [|reflexivity].
      exfalso. now apply extract_tool_calls_nonempty in Hcalls.
  - intros -> Hne.
    destruct (Py.or_empty _) as [|c rest]; [contradiction | reflexivity].
  - intros -> ->. now rewrite app_nil_r.
Qed.

End AssistantTurn.

(** A reply with text and no tool call. *)
Lemma assistant_turn_appended_witness :
  exists records,
    parse_messages (C := Scripted.collaborators) [Scripted.user "hi"]
    = Ok records
    /\ (forall calls,
          (None : option (list ToolCall.t)) = Some calls ->
          calls <> []
          /\ [ChatCompletionUserMessageParam "hi" "user";
              ChatCompletionAssistantMessageParam "assistant" "hello" None] =
               entered_history (C := Scripted.collaborators) true
                 (Scripted.fresh
                    [inr (Scripted.completion (Some "hello") None None)])
                 records
               ++ [ChatCompletionMessageParam.mk
                     "assistant" "hello" None None
                     (Some
                        (map (fun call =>
                                ChatCompletionMessageToolCallParam.mk
                                  (ToolCall.call_id call)
                                  (Function.mk
                                     (ToolCall.name call)
                                     (Scripted.dumps (ToolCall.arguments call)))
                                  "function")
                           calls))])
    /\ ((None : option (list ToolCall.t)) = None ->
        "hello" <> EmptyString ->
        [ChatCompletionUserMessageParam "hi" "user";
         ChatCompletionAssistantMessageParam "assistant" "hello" None] =
          entered_history (C := Scripted.collaborators) true
            (Scripted.fresh
               [inr (Scripted.completion (Some "hello") None None)])
            records
          ++ [ChatCompletionMessageParam.mk "assistant" "hello" None None None])
    /\ ((None : option (list ToolCall.t)) = None ->
        "hello" = EmptyString ->
        [ChatCompletionUserMessageParam "hi" "user";
         ChatCompletionAssistantMessageParam "assistant" "hello" None] =
          entered_history (C := Scripted.collaborators) true
            (Scripted.fresh
               [inr (Scripted.completion (Some "hello") None None)])
            records).
Proof.
  apply (assistant_turn_appended (C := Scripted.collaborators)
           [Scripted.user "hi"] (Scripted.parameters "gpt-4o" 0) None true
           (Scripted.fresh [inr (Scripted.completion (Some "hello") None None)])
           (snd (chat (C := Scripted.collaborators)
                   [Scripted.user "hi"] (Scripted.parameters "gpt-4o" 0)
                   None true
                   (Scripted.fresh
                      [inr (Scripted.completion (Some "hello") None None)])))
           (LLMResponse.mk "hello" None "stop" "gpt-4o" None)).
  reflexivity.
Defined.

(** C4, the claim as worded fails: a reply with no tool call and no content
    is a successful call that appends nothing, and the history then ends
    with the caller's message. *)
Lemma empty_reply_counterexample :
  fst (chat (C := Scripted.collaborators)
         [Scripted.user "hi"] (Scripted.parameters "gpt-4o" 0) None true
         (Scripted.fresh [inr (Scripted.completion None None None)]))
  = Ok (LLMResponse.mk EmptyString None "stop" "gpt-4o" None)
  /\ history
       (snd (chat (C := Scripted.collaborators)
               [Scripted.user "hi"] (Scripted.parameters "gpt-4o" 0) None true
               (Scripted.fresh [inr (Scripted.completion None None None)])))
     = [ChatCompletionUserMessageParam "hi" "user"].
Proof. split; reflexivity. Qed.

(** ** Tool-calling support *)

Section ToolCallingSupport.

Context {C : Collaborators}.

(** C5, as amended. [supports_tool_calling] returns [True] for every
    configuration, whatever the model's name, and leaves the state (the
    client with its stored history, the world, the provider's log) as it
    was. *)
Theorem supports_tool_calling_always_true
    (model_parameters : ModelParameters.t) (st : State) :
  supports_tool_calling model_parameters st = (Ok true, st).
Proof. reflexivity. Qed.

End ToolCallingSupport.

(** C5, the claim as worded fails: the answer for a model name that no list
    knows is [True], not [False]. *)
Lemma unrecognized_model_counterexample :
  ModelParameters.model (Scripted.parameters "no such model" 1)
  = "no such model"
  /\ supports_tool_calling (C := Scripted.collaborators)
       (Scripted.parameters "no such model" 1) (Scripted.fresh [])
     = (Ok true, Scripted.fresh [])
  /\ Ok true <> Ok false.
Proof. repeat split. discriminate. Qed.

(** ** Construction *)

Section Construction.

Context {S : AzureSDK}.

(** C9, as amended. Constructing a client from a configuration whose base
    URL is missing or empty fails with the configuration error, and the
    SDK's constructor is not called. Construction is a function of the
    configuration and of the SDK's constructor alone: it takes no state, so
    it neither reaches the provider nor passes through the retry wrapper,
    and the retry count of the configuration plays no part. With a base URL
    the SDK's constructor is called with the URL, the version and the key:
    if it raises, construction raises its error; if it returns a client,
    construction succeeds, the client stores the key, the URL and the
    version, holds that SDK client, has no recorder and an empty history. *)
Theorem construction_requires_base_url (model_parameters : ModelParameters.t) :
  (lacks_content (ModelParameters.base_url model_parameters) ->
   __init__ model_parameters
   = Raise (ValueError "base_url is required for AzureClient"))
  /\ (forall url detail,
        present (ModelParameters.base_url model_parameters) url ->
        new_AzureOpenAI url
          (ModelParameters.api_version model_parameters)
          (ModelParameters.api_key model_parameters)
        = inl detail ->
        __init__ model_parameters = Raise (ProviderError detail))
  /\ (forall url sdk_client,
        present (ModelParameters.base_url model_parameters) url ->
        new_AzureOpenAI url
          (ModelParameters.api_version model_parameters)
          (ModelParameters.api_key model_parameters)
        = inr sdk_client ->
        __init__ model_parameters
        = Ok (AzureClient.mk
                (ModelParameters.api_key model_parameters)
                (Some url)
                (ModelParameters.api_version model_parameters)
                None
                sdk_client
                []))
  /\ (forall retries,
        __init__
          (ModelParameters.mk
             (ModelParameters.model model_parameters)
             (ModelParameters.api_key model_parameters)
             (ModelParameters.max_tokens model_parameters)
             (ModelParameters.temperature model_parameters)
             (ModelParameters.top_p model_parameters)
             (ModelParameters.top_k model_parameters)
             (ModelParameters.parallel_tool_calls model_parameters)
             retries
             (ModelParameters.base_url model_parameters)
             (ModelParameters.api_version model_parameters))
        = __init__ model_parameters).
Proof.
  unfold __init__, lacks_content, present.
  destruct model_parameters as [m k mt t tp tk p r url v]; simpl.
  split; [|split; [|split]].
  - intros [-> | ->]; reflexivity.
  - intros u detail [-> Hne] Hsdk.
    destruct u as [|c rest]; [contradiction|]. now rewrite Hsdk.
  - intros u sdk_client [-> Hne] Hsdk.
    destruct u as [|c rest]; [contradiction|]. now rewrite Hsdk.
  - reflexivity.
Qed.

End Construction.

(** C9, the claim as worded fails: with a base URL and no API version, in an
    environment that names none, the SDK's constructor raises and so does
    the construction of the client. *)
Lemma construction_counterexample :
  ModelParameters.base_url Scenario.unversioned
  = Some "https://example.openai.azure.com"
  /\ __init__ (S := Scenario.strict_sdk) Scenario.unversioned
     = Raise
         (ProviderError
            "Must provide either the api_version argument or the OPENAI_API_VERSION environment variable").
Proof. split; reflexivity. Qed.

(** No base URL, and an empty one: refused whatever the SDK would say. *)
Example construction_without_base_url :
  __init__ (S := Scenario.lenient_sdk)
    (ModelParameters.mk "gpt-4o" "key" 1000 0.5%float 1%float 0 false 3
       None (Some "2024-03-01-preview"))
  = Raise (ValueError "base_url is required for AzureClient")
  /\ __init__ (S := Scenario.strict_sdk)
       (ModelParameters.mk "gpt-4o" "key" 1000 0.5%float 1%float 0 false 3
          (Some EmptyString) None)
     = Raise (ValueError "base_url is required for AzureClient").
Proof. split; reflexivity. Qed.

(** With a base URL and a version the client is the one the scripted runs
    start from, under either SDK. *)
Example construction_with_base_url :
  __init__ (S := Scenario.lenient_sdk) (Scripted.parameters "gpt-4o" 3)
  = Ok (self (Scripted.fresh []))
  /\ __init__ (S := Scenario.strict_sdk) (Scripted.parameters "gpt-4o" 3)
     = Ok (self (Scripted.fresh [])).
Proof. split; reflexivity. Qed.

(** ** The response and the identifiers of its tool calls *)

Section Response.

Context {C : Collaborators}.






(** A successful [chat], from the provider's answer to the stored history. *)
Lemma chat_ok_response messages mp tools reuse (st st' : State) rsp :
  chat messages mp tools reuse st = (Ok rsp, st') ->
  exists records earlier a response choice others tool_calls,
    parse_messages messages = Ok records
    /\ network st' = network st ++ earlier ++ [a]
    /\ outcome a = inr response
    /\ ChatCompletion.choices response = choice :: others
    /\ extract_tool_calls choice = Ok tool_calls
    /\ rsp = build_llm_response response choice tool_calls
    /\ history st' = entered_history reuse st records ++ assistant_turn rsp.
Proof.
  intros H. apply chat_ok_inv in H.
  destruct H as (records & response & choice & tool_calls & st2
                 & Hparse & Hcall & Hchoice & Hcalls & Hrsp & Hhist & Hnet).
  apply wrapped_call_spec in Hcall.
  destruct Hcall as (_ & earlier & a & Hnet2 & _ & _ & _ & Hout).
  unfold first_choice in Hchoice.
  destruct (ChatCompletion.choices response) as [|c others] eqn:Hchoices;
    [discriminate|]. injection Hchoice as ->.
  exists records, earlier, a, response, choice, others, tool_calls.
  repeat split; try assumption.
  rewrite Hnet, Hnet2. reflexivity.
Qed.


End Response.


(** ** Bounded retries *)

Section Retries.

Context {C : Collaborators}.

Lemma create_request args (st st' : State) (r : result ChatCompletion.t) :
  _create_azure_response args st = (r, st') ->
  self st' = self st
  /\ exists out,
      network st' =
        network st ++ [{| request := request_in args st; outcome := out |}].
Proof.
  destruct args as [mp schemas]. unfold _create_azure_response.
  destruct (completions_create _ _ _) as [out w'].
  intros H. injection H as <- <-. simpl. eauto.
Qed.

Lemma request_in_self args (st st1 : State) :
  self st1 = self st -> request_in args st1 = request_in args st.
Proof. intros H. unfold request_in, history. now rewrite H. Qed.

(** Every attempt of the retry loop sends the same request. *)
Lemma retry_same_request args (n : nat) :
  forall (st st' : State) (r : result ChatCompletion.t),
    retry_loop (_create_azure_response args) n st = (r, st') ->
    exists attempts,
      network st' = network st ++ attempts
      /\ Forall (fun x => request x = request_in args st) attempts.
Proof.
  induction n as [|n IH]; intros st st' r; simpl;
    destruct (_create_azure_response args st) as [[completion|e] st1] eqn:Hstep;
    apply create_request in Hstep; destruct Hstep as (Hself & out & Hnet);
    try (intros H; injection H as <- <-; eexists; split; [exact Hnet|];
         repeat constructor).
  intros H. apply IH in H. destruct H as (attempts & Hnet' & HF).
  eexists. split.
  - rewrite Hnet', Hnet, <- app_assoc. reflexivity.
  - constructor; [reflexivity|].
    now rewrite (request_in_self _ _ _ Hself) in HF.
Qed.

(** C8. Once the messages are translated, [chat] calls the provider through
    the retry wrapper with the configured retry count. The log grows by the
    attempts of this call: at least one, and at most the retry count more;
    all but the last failed, and all send the same request. If the last
    attempt failed too, the retries were used up and [chat] raises that last
    failure; if it succeeded, no provider failure reaches the caller. *)
Theorem retries_bounded
    (messages : list LLMMessage.t)
    (records : list ChatCompletionMessageParam.t)
    (mp : ModelParameters.t) (tools : option (list Tool.t)) (reuse : bool)
    (st st' : State) (r : result LLMResponse.t)
    (Hparse : parse_messages messages = Ok records)
    (Hchat : chat messages mp tools reuse st = (r, st')) :
  exists earlier a,
    network st' = network st ++ earlier ++ [a]
    /\ length earlier <= Z.to_nat (ModelParameters.max_retries mp)
    /\ Forall failed earlier
    /\ Forall (fun x => request x = request a) earlier
    /\ (forall detail,
          outcome a = inl detail ->
          length earlier = Z.to_nat (ModelParameters.max_retries mp)
          /\ r = Raise (ProviderError detail))
    /\ (forall completion,
          outcome a = inr completion ->
          forall detail, r <> Raise (ProviderError detail)).
Proof.
  rewrite (chat_parsed _ _ _ _ _ _ Hparse) in Hchat.
  destruct (wrapped_call _ _ _) as [r2 st2] eqn:Hcall.
  pose proof Hcall as Hsame. unfold wrapped_call, retry_with in Hsame.
  apply retry_same_request in Hsame. destruct Hsame as (attempts & Hnet' & HF).
  apply wrapped_call_spec in Hcall.
  destruct Hcall as (Hself & earlier & a & Hnet & Hlen & Hfailed & _ & Hr).
  rewrite Hnet in Hnet'. apply app_inv_head in Hnet'. subst attempts.
  rewrite network_with_history in Hnet.
  assert (Hreq : Forall (fun x => request x = request a) earlier).
  { apply Forall_app in HF. destruct HF as (HF1 & HF2).
    inversion HF2 as [|? ? Ha _]; subst.
    eapply Forall_impl; [|exact HF1]. intros x Hx. congruence. }
  assert (Hnet4 : network st' = network st2).
  { destruct r2 as [response|e]; [|now injection Hchat as _ <-].
    destruct (first_choice response) as [choice|e];
      [|now injection Hchat as _ <-].
    destruct (extract_tool_calls choice) as [tool_calls|e];
      [|now injection Hchat as _ <-].
    cbv zeta in Hchat.
    destruct (record_interaction _ _ _ _ _) as [r4 st4] eqn:Hrec.
    apply record_interaction_spec in Hrec. destruct Hrec as (_ & Hn & _).
    assert (st4 = st') by (destruct r4 as [[]|]; now injection Hchat).
    subst st4. exact Hn. }
  exists earlier, a. rewrite Hnet4.
  split; [assumption|]. split; [assumption|].
  split; [assumption|]. split; [assumption|].
  destruct r2 as [response|e].
  - split.
    + intros detail Hd. congruence.
    + intros completion _ detail ->.
      destruct (first_choice response) as [choice|e] eqn:Hchoice.
      2:{ injection Hchat as -> _. apply first_choice_raise in Hchoice.
          destruct Hchoice; discriminate. }
      destruct (extract_tool_calls choice) as [tool_calls|e] eqn:Hext.
      2:{ injection Hchat as -> _. apply extract_tool_calls_raise in Hext.
          destruct Hext; discriminate. }
      cbv zeta in Hchat.
      destruct (record_interaction _ _ _ _ _) as [[[]|e] st4] eqn:Hrec;
        [discriminate|].
      injection Hchat as -> _. apply record_interaction_spec in Hrec.
      destruct Hrec as (_ & _ & d & Hd). discriminate.
  - destruct Hr as (Hn & d & Hd & ->). injection Hchat as <- _. split.
    + intros detail Hdetail. split; [assumption|]. congruence.
    + intros completion Hc. congruence.
Qed.

End Retries.

(** One retry allowed and the provider failing twice: two attempts, and the
    second failure is the one raised. *)
Lemma retries_bounded_witness :
  exists earlier a,
    network Scripted.after_two_failures = [] ++ earlier ++ [a]
    /\ length earlier <= Z.to_nat 1
    /\ Forall failed earlier
    /\ Forall (fun x => request x = request a) earlier
    /\ (forall detail,
          outcome a = inl detail ->
          length earlier = Z.to_nat 1
          /\ Raise (A := LLMResponse.t) (ProviderError "overloaded")
             = Raise (ProviderError detail))
    /\ (forall completion,
          outcome a = inr completion ->
          forall detail,
            Raise (A := LLMResponse.t) (ProviderError "overloaded")
            <> Raise (ProviderError detail)).
Proof.
  apply (retries_bounded (C := Scripted.collaborators)
           [Scripted.user "hi"] [ChatCompletionUserMessageParam "hi" "user"]
           (Scripted.parameters "gpt-4o" 1) None true
           (Scripted.fresh
              [inl "timeout"; inl "overloaded"; inr Scripted.tool_reply])
           Scripted.after_two_failures
           (Raise (ProviderError "overloaded"))).
  - reflexivity.
  - reflexivity.
Defined.

(** * Further properties *)

(** ** Composition of translations and of calls *)

Section Composition.

Context {C : Collaborators}.

Lemma parse_messages_loop_from messages azure_messages :
  parse_messages_loop messages azure_messages =
    match parse_messages_loop messages [] with
    | Ok records => Ok (azure_messages ++ records)
    | Raise e => Raise e
    end.
Proof.
  destruct (parse_messages_loop messages []) as [records|e] eqn:H.
  - apply parse_messages_loop_ok in H. destruct H as (rs & HF & ->).
    apply parse_messages_loop_ok. exists rs. auto.
  - apply parse_messages_loop_raise in H. now apply parse_messages_loop_raise.
Qed.

Lemma parse_messages_loop_app first second :
  forall azure_messages,
    parse_messages_loop (first ++ second) azure_messages =
      match parse_messages_loop first azure_messages with
      | Ok records => parse_messages_loop second records
      | Raise e => Raise e
      end.
Proof.
  induction first as [|msg rest IH]; intros acc; simpl; [reflexivity|].
  destruct (parse_message msg); [apply IH | reflexivity].
Qed.

Lemma parse_messages_joined first second records more :
  parse_messages first = Ok records ->
  parse_messages second = Ok more ->
  parse_messages (first ++ second) = Ok (records ++ more).
Proof.
  unfold parse_messages. intros Hfirst Hsecond.
  rewrite parse_messages_loop_app, Hfirst, parse_messages_loop_from, Hsecond.
  reflexivity.
Qed.

(** X1. The translation of a list in two parts is the translation of the first
    part followed by that of the second; the error is that of the first
    part, if it has one, and else that of the second. *)
Theorem parse_messages_app (first second : list LLMMessage.t) :
  parse_messages (first ++ second) =
    match parse_messages first with
    | Raise e => Raise e
    | Ok records =>
        match parse_messages second with
        | Raise e => Raise e
        | Ok more => Ok (records ++ more)
        end
    end.
Proof.
  unfold parse_messages. rewrite parse_messages_loop_app.
  destruct (parse_messages_loop first []) as [records|e]; [|reflexivity].
  apply parse_messages_loop_from.
Qed.

Lemma record_interaction_without_recorder messages rsp mp tools (st : State) :
  AzureClient.trajectory_recorder (self st) = None ->
  record_interaction messages rsp mp tools st = (Ok tt, st).
Proof. intros H. unfold record_interaction. now rewrite H. Qed.

(** The rest of [chat] once the history is entered depends on the messages
    only through the recorder. *)
Lemma chat_parsed_without_recorder messages records mp tools reuse (st : State) :
  parse_messages messages = Ok records ->
  AzureClient.trajectory_recorder (self st) = None ->
  chat messages mp tools reuse st =
    match wrapped_call mp tools
            (with_history st (entered_history reuse st records)) with
    | (Raise e, st2) => (Raise e, st2)
    | (Ok response, st2) =>
        match first_choice response with
        | Raise e => (Raise e, st2)
        | Ok choice =>
            match extract_tool_calls choice with
            | Raise e => (Raise e, st2)
            | Ok tool_calls =>
                (Ok (build_llm_response response choice tool_calls),
                 with_history st2
                   (history st2
                    ++ assistant_turn
                         (build_llm_response response choice tool_calls)))
            end
        end
    end.
Proof.
  intros Hparse Hrec. rewrite (chat_parsed _ _ _ _ _ _ Hparse).
  destruct (wrapped_call _ _ _) as [[response|e] st2] eqn:Hcall;
    [|reflexivity].
  destruct (first_choice response) as [choice|e]; [|reflexivity].
  destruct (extract_tool_calls choice) as [tool_calls|e]; [|reflexivity].
  cbv zeta. rewrite record_interaction_without_recorder; [reflexivity|].
  apply wrapped_call_spec in Hcall. destruct Hcall as (Hself & _).
  simpl. rewrite Hself. exact Hrec.
Qed.

(** X2. Setting the history to one list and then chatting with another, the
    history reused, is chatting with the two lists joined, the history
    replaced: same result, same state. Both lists must be valid, and no
    recorder attached (the recorder is told the messages of the call). *)
Theorem set_history_then_chat
    (first second : list LLMMessage.t)
    (records more : list ChatCompletionMessageParam.t)
    (mp : ModelParameters.t) (tools : option (list Tool.t)) (st : State)
    (Hfirst : parse_messages first = Ok records)
    (Hsecond : parse_messages second = Ok more)
    (Hrecorder : AzureClient.trajectory_recorder (self st) = None) :
  bind (set_chat_history first) (fun _ => chat second mp tools true) st
  = chat (first ++ second) mp tools false st.
Proof.
  unfold bind. rewrite set_chat_history_spec, Hfirst.
  assert (Hjoined : parse_messages (first ++ second) = Ok (records ++ more)).
  { now apply parse_messages_joined. }
  rewrite (chat_parsed_without_recorder second more mp tools true
             (with_history st records) Hsecond Hrecorder).
  rewrite (chat_parsed_without_recorder _ _ mp tools false st
             Hjoined Hrecorder).
  reflexivity.
Qed.

(** X3. Chatting with the history replaced is clearing the history and then
    chatting with the history reused, when the messages are valid. *)
Theorem chat_replacing_is_clear_then_chat
    (messages : list LLMMessage.t)
    (records : list ChatCompletionMessageParam.t)
    (mp : ModelParameters.t) (tools : option (list Tool.t)) (st : State)
    (Hparse : parse_messages messages = Ok records) :
  chat messages mp tools false st
  = bind (set_chat_history []) (fun _ => chat messages mp tools true) st.
Proof.
  unfold bind. rewrite set_chat_history_spec. simpl.
  rewrite !(chat_parsed _ _ _ _ _ _ Hparse). reflexivity.
Qed.

End Composition.

Lemma set_history_then_chat_witness :
  bind (set_chat_history (C := Scripted.collaborators) [Scripted.user "hi"])
    (fun _ => chat [Scripted.user "more"] (Scripted.parameters "gpt-4o" 1)
                None true)
    (Scripted.fresh [inl "timeout"; inr Scripted.tool_reply])
  = chat [Scripted.user "hi"; Scripted.user "more"]
      (Scripted.parameters "gpt-4o" 1) None false
      (Scripted.fresh [inl "timeout"; inr Scripted.tool_reply]).
Proof.
  apply (set_history_then_chat (C := Scripted.collaborators)
           [Scripted.user "hi"] [Scripted.user "more"]
           [ChatCompletionUserMessageParam "hi" "user"]
           [ChatCompletionUserMessageParam "more" "user"]);
    reflexivity.
Defined.

Lemma chat_replacing_is_clear_then_chat_witness :
  chat (C := Scripted.collaborators) [Scripted.user "hi"]
    (Scripted.parameters "gpt-4o" 1) None false Scripted.after_tool_reply
  = bind (set_chat_history [])
      (fun _ => chat [Scripted.user "hi"] (Scripted.parameters "gpt-4o" 1)
                  None true)
      Scripted.after_tool_reply.
Proof.
  apply (chat_replacing_is_clear_then_chat (C := Scripted.collaborators)
           [Scripted.user "hi"] [ChatCompletionUserMessageParam "hi" "user"]).
  reflexivity.
Defined.

(** ** What a call leaves behind *)

Section Outcomes.

Context {C : Collaborators}.

Lemma record_interaction_raise messages rsp mp tools (st st' : State) e :
  record_interaction messages rsp mp tools st = (Raise e, st') ->
  AzureClient.trajectory_recorder (self st) <> None
  /\ exists detail, e = RecorderError detail.
Proof.
  unfold record_interaction.
  destruct (AzureClient.trajectory_recorder (self st)) as [rec|];
    [|discriminate].
  destruct (record_llm_interaction _ _ _) as [[detail|] w'];
    intros H; [|discriminate]. injection H as <- <-.
  split; [discriminate | eauto].
Qed.

(** Every way [chat] can end once the messages are translated. *)
Lemma chat_outcome messages records mp tools reuse
    (st st' : State) (r : result LLMResponse.t) :
  parse_messages messages = Ok records ->
  chat messages mp tools reuse st = (r, st') ->
  exists r2 st2,
    wrapped_call mp tools
      (with_history st (entered_history reuse st records)) = (r2, st2)
    /\ history st2 = entered_history reuse st records
    /\ network st' = network st2
    /\ self st' = AzureClient.with_message_history (self st) (history st')
    /\ match r2 with
       | Raise e => r = Raise e /\ st' = st2
       | Ok response =>
           match first_choice response with
           | Raise e => r = Raise e /\ st' = st2
           | Ok choice =>
               match extract_tool_calls choice with
               | Raise e => r = Raise e /\ st' = st2
               | Ok calls =>
                   history st' =
                     history st2
                     ++ assistant_turn (build_llm_response response choice calls)
                   /\ (r = Ok (build_llm_response response choice calls)
                       \/ (AzureClient.trajectory_recorder (self st) <> None
                           /\ exists detail, r = Raise (RecorderError detail)))
               end
           end
       end.
Proof.
  intros Hparse. rewrite (chat_parsed _ _ _ _ _ _ Hparse).
  destruct (wrapped_call _ _ _) as [r2 st2] eqn:Hcall.
  intros Hchat. exists r2, st2. split; [reflexivity|].
  apply wrapped_call_spec in Hcall. destruct Hcall as (Hself & _).
  assert (Hhist : history st2 = entered_history reuse st records).
  { unfold history at 1. now rewrite Hself. }
  assert (Hself2 : self st2
                   = AzureClient.with_message_history (self st) (history st2)).
  { rewrite Hhist, Hself. reflexivity. }
  split; [exact Hhist|].
  assert (Hstop : forall e, (Raise e, st2) = (r, st') ->
            network st' = network st2
            /\ self st'
               = AzureClient.with_message_history (self st) (history st')
            /\ r = Raise e /\ st' = st2).
  { intros e Heq. injection Heq as <- <-. auto. }
  destruct r2 as [response|e]; [|apply Hstop in Hchat; tauto].
  destruct (first_choice response) as [choice|e];
    [|apply Hstop in Hchat; tauto].
  destruct (extract_tool_calls choice) as [calls|e];
    [|apply Hstop in Hchat; tauto].
  cbv zeta in Hchat.
  destruct (record_interaction _ _ _ _ _) as [r4 st4] eqn:Hrec.
  pose proof (record_interaction_spec _ _ _ _ _ _ _ Hrec) as (Hself4 & Hnet4 & _).
  assert (Hst : st4 = st') by (destruct r4 as [[]|]; now injection Hchat).
  subst st4.
  assert (Hhist' : history st' =
            history st2
            ++ assistant_turn (build_llm_response response choice calls)).
  { unfold history at 1. now rewrite Hself4. }
  split; [exact Hnet4|]. split.
  { rewrite Hself4, Hhist'. simpl. rewrite Hself. reflexivity. }
  split; [exact Hhist'|].
  destruct r4 as [[]|e].
  - injection Hchat as <-. now left.
  - injection Hchat as <-. right.
    apply record_interaction_raise in Hrec. simpl in Hrec.
    rewrite Hself in Hrec. destruct Hrec as (Hattached & detail & ->).
    split; [exact Hattached | eauto].
Qed.

(** X4. When [chat] fails after the translation, for any reason but the
    recorder, the stored history is the entered one: the caller's messages
    are in it, after the earlier history if it was reused, and no assistant
    record follows them. *)
Theorem failed_chat_keeps_messages
    (messages : list LLMMessage.t)
    (records : list ChatCompletionMessageParam.t)
    (mp : ModelParameters.t) (tools : option (list Tool.t)) (reuse : bool)
    (st st' : State) (e : exception)
    (Hparse : parse_messages messages = Ok records)
    (Hchat : chat messages mp tools reuse st = (Raise e, st'))
    (Hnot_recorder : forall detail, e <> RecorderError detail) :
  history st' = (if reuse then history st ++ records else records).
Proof.
  destruct (chat_outcome _ _ _ _ _ _ _ _ Hparse Hchat)
    as (r2 & st2 & _ & Hhist & _ & _ & Hcase).
  change (history st' = entered_history reuse st records).
  destruct r2 as [response|e2]; [|destruct Hcase as (_ & ->); exact Hhist].
  destruct (first_choice response) as [choice|e2];
    [|destruct Hcase as (_ & ->); exact Hhist].
  destruct (extract_tool_calls choice) as [calls|e2];
    [|destruct Hcase as (_ & ->); exact Hhist].
  destruct Hcase as (_ & [H | (_ & detail & H)]); [discriminate|].
  injection H as ->. now destruct (Hnot_recorder detail).
Qed.


End Outcomes.

(** Both attempts fail: the user's message stays in the history. *)
Lemma failed_chat_keeps_messages_witness :
  history Scripted.after_two_failures
  = (if true
     then history (Scripted.fresh
                     [inl "timeout"; inl "overloaded"; inr Scripted.tool_reply])
          ++ [ChatCompletionUserMessageParam "hi" "user"]
     else [ChatCompletionUserMessageParam "hi" "user"]).
Proof.
  apply (failed_chat_keeps_messages (C := Scripted.collaborators)
           [Scripted.user "hi"] [ChatCompletionUserMessageParam "hi" "user"]
           (Scripted.parameters "gpt-4o" 1) None true
           (Scripted.fresh
              [inl "timeout"; inl "overloaded"; inr Scripted.tool_reply])
           Scripted.after_two_failures (ProviderError "overloaded")).
  - reflexivity.
  - reflexivity.
  - discriminate.
Defined.


(** ** Errors after the provider has answered *)

Section AnswerErrors.

Context {C : Collaborators}.

(** The last attempt logged by a call, with what [chat] made of it. *)
Lemma chat_last_attempt messages records mp tools reuse
    (st st' : State) (r : result LLMResponse.t) :
  parse_messages messages = Ok records ->
  chat messages mp tools reuse st = (r, st') ->
  exists earlier a,
    network st' = network st ++ earlier ++ [a]
    /\ ((exists detail, outcome a = inl detail
                        /\ r = Raise (ProviderError detail))
        \/ exists response,
            outcome a = inr response
            /\ match first_choice response with
               | Raise e => r = Raise e
               | Ok choice =>
                   match extract_tool_calls choice with
                   | Raise e => r = Raise e
                   | Ok calls =>
                       r = Ok (build_llm_response response choice calls)
                       \/ exists detail, r = Raise (RecorderError detail)
                   end
               end).
Proof.
  intros Hparse Hchat.
  destruct (chat_outcome _ _ _ _ _ _ _ _ Hparse Hchat)
    as (r2 & st2 & Hcall & _ & Hnet & _ & Hcase).
  apply wrapped_call_spec in Hcall.
  destruct Hcall as (_ & earlier & a & Hnet2 & _ & _ & _ & Hout).
  rewrite network_with_history in Hnet2.
  exists earlier, a. split; [congruence|].
  destruct r2 as [response|e].
  - right. exists response. split; [exact Hout|].
    destruct (first_choice response) as [choice|e]; [|tauto].
    destruct (extract_tool_calls choice) as [calls|e]; [|tauto].
    destruct Hcase as (_ & [H | (_ & H)]); auto.
  - left. destruct Hout as (_ & detail & Hd & ->).
    exists detail. tauto.
Qed.

Lemma first_choice_raise_iff response :
  (exists e, first_choice response = Raise e)
  <-> ChatCompletion.choices response = [].
Proof.
  unfold first_choice.
  destruct (ChatCompletion.choices response); split;
    try discriminate; eauto.
  intros [e H]. discriminate.
Qed.

Lemma to_ToolCall_raise_iff tool_call :
  (exists e, to_ToolCall tool_call = Raise e) <-> undecodable tool_call.
Proof.
  unfold to_ToolCall, undecodable.
  destruct (FunctionCall.arguments _) as [|c rest].
  - split; [intros [e H]; discriminate | intros [H _]; contradiction].
  - destruct (json_loads _); split.
    + intros [e H]. discriminate.
    + intros [_ H]. discriminate.
    + intros _. split; [discriminate | reflexivity].
    + eauto.
Qed.

Lemma tool_calls_loop_raise_iff provider_calls :
  forall tool_calls,
    (exists e, tool_calls_loop provider_calls tool_calls = Raise e)
    <-> Exists undecodable provider_calls.
Proof.
  induction provider_calls as [|pc rest IH]; intros acc; simpl.
  - split; [intros [e H]; discriminate | intros H; inversion H].
  - destruct (to_ToolCall pc) as [call|e] eqn:Hcall.
    + rewrite IH. split; [now right|].
      intros H. inversion H as [? ? Hpc | ? ? Hrest]; subst; [|assumption].
      apply to_ToolCall_raise_iff in Hpc. destruct Hpc as [e He]. congruence.
    + split; [|eauto]. intros _. left. apply to_ToolCall_raise_iff. eauto.
Qed.

Lemma extract_tool_calls_raise_iff choice :
  (exists e, extract_tool_calls choice = Raise e)
  <-> exists provider_calls,
        ChatCompletionMessage.tool_calls (Choice.message choice)
        = Some provider_calls
        /\ Exists undecodable provider_calls.
Proof.
  unfold extract_tool_calls.
  destruct (ChatCompletionMessage.tool_calls _) as [[|pc rest]|].
  - split; [intros [e H]; discriminate|].
    intros (pcs & H & Hex). injection H as <-. inversion Hex.
  - destruct (tool_calls_loop (pc :: rest) []) as [calls|e] eqn:Hloop.
    + split; [intros [e H]; discriminate|].
      intros (pcs & H & Hex). injection H as <-.
      apply (tool_calls_loop_raise_iff (pc :: rest) []) in Hex.
      destruct Hex as [e He]. congruence.
    + split; [|eauto]. intros _. exists (pc :: rest). split; [reflexivity|].
      apply (tool_calls_loop_raise_iff (pc :: rest) []). eauto.
  - split; [intros [e H]; discriminate|].
    intros (pcs & H & _). discriminate.
Qed.

(** X6. Once the messages are translated, [chat] raises an [IndexError] exactly
    when the provider's answer, the outcome of the last attempt, has no
    choice. *)
Theorem index_error_iff_no_choice
    (messages : list LLMMessage.t)
    (records : list ChatCompletionMessageParam.t)
    (mp : ModelParameters.t) (tools : option (list Tool.t)) (reuse : bool)
    (st st' : State) (r : result LLMResponse.t)
    (Hparse : parse_messages messages = Ok records)
    (Hchat : chat messages mp tools reuse st = (r, st')) :
  exists earlier a,
    network st' = network st ++ earlier ++ [a]
    /\ ((exists text, r = Raise (IndexError text))
        <-> exists response,
              outcome a = inr response
              /\ ChatCompletion.choices response = []).
Proof.
  destruct (chat_last_attempt _ _ _ _ _ _ _ _ Hparse Hchat)
    as (earlier & a & Hnet & Hcase).
  exists earlier, a. split; [exact Hnet|].
  destruct Hcase as [(detail & Hout & ->) | (response & Hout & Hcase)].
  - split; [intros [text H]; discriminate|].
    intros (response & H & _). congruence.
  - destruct (first_choice response) as [choice|e] eqn:Hchoice.
    + assert (Hne : ChatCompletion.choices response <> []).
      { intros H. apply first_choice_raise_iff in H. destruct H. congruence. }
      split.
      * intros [text ->].
        destruct (extract_tool_calls choice) as [calls|e] eqn:Hcalls.
        -- destruct Hcase as [H | [d H]]; discriminate.
        -- injection Hcase as <-. apply extract_tool_calls_raise in Hcalls.
           destruct Hcalls. discriminate.
      * intros (response' & H & Hnil). congruence.
    + subst r. split.
      * intros _. exists response. split; [exact Hout|].
        apply first_choice_raise_iff. eauto.
      * intros _. eapply first_choice_raise in Hchoice.
        destruct Hchoice as [text ->]. eauto.
Qed.

(** X7. Once the messages are translated, [chat] raises a [JSONDecodeError]
    exactly when the first choice of the provider's answer has a tool call
    whose arguments are not empty and do not decode. *)
Theorem decode_error_iff_undecodable
    (messages : list LLMMessage.t)
    (records : list ChatCompletionMessageParam.t)
    (mp : ModelParameters.t) (tools : option (list Tool.t)) (reuse : bool)
    (st st' : State) (r : result LLMResponse.t)
    (Hparse : parse_messages messages = Ok records)
    (Hchat : chat messages mp tools reuse st = (r, st')) :
  exists earlier a,
    network st' = network st ++ earlier ++ [a]
    /\ ((exists doc, r = Raise (JSONDecodeError doc))
        <-> exists response choice others provider_calls,
              outcome a = inr response
              /\ ChatCompletion.choices response = choice :: others
              /\ ChatCompletionMessage.tool_calls (Choice.message choice)
                 = Some provider_calls
              /\ Exists undecodable provider_calls).
Proof.
  destruct (chat_last_attempt _ _ _ _ _ _ _ _ Hparse Hchat)
    as (earlier & a & Hnet & Hcase).
  exists earlier, a. split; [exact Hnet|].
  destruct Hcase as [(detail & Hout & ->) | (response & Hout & Hcase)].
  - split; [intros [doc H]; discriminate|].
    intros (response & ? & ? & ? & H & _). congruence.
  - unfold first_choice in Hcase.
    destruct (ChatCompletion.choices response) as [|choice others] eqn:Hchoices.
    + subst r. split; [intros [doc H]; discriminate|].
      intros (response' & ? & ? & ? & H & H' & _).
      assert (response' = response) by congruence. subst. congruence.
    + destruct (extract_tool_calls choice) as [calls|e] eqn:Hcalls.
      * split.
        -- intros [doc ->]. destruct Hcase as [H | [d H]]; discriminate.
        -- intros (response' & choice' & others' & pcs & H & H' & Hpcs & Hex).
           assert (response' = response) by congruence. subst response'.
           assert (choice' = choice) by congruence. subst choice'.
           assert (Hraise : exists e, extract_tool_calls choice = Raise e).
           { apply extract_tool_calls_raise_iff. eauto. }
           destruct Hraise. congruence.
      * subst r. split.
        -- intros _.
           assert (Hraise : exists e', extract_tool_calls choice = Raise e')
             by eauto.
           apply extract_tool_calls_raise_iff in Hraise.
           destruct Hraise as (pcs & Hpcs & Hex).
           exists response, choice, others, pcs. auto.
        -- intros _. apply extract_tool_calls_raise in Hcalls.
           destruct Hcalls as [doc ->]. eauto.
Qed.

End AnswerErrors.

(** An answer without choices, and one with garbled arguments. *)
Lemma index_error_iff_no_choice_witness :
  exists earlier a,
    network
      (snd (chat (C := Scripted.collaborators) [Scripted.user "hi"]
              (Scripted.parameters "gpt-4o" 0) None true
              (Scripted.fresh [inr Scenario.no_choice_reply])))
    = network (Scripted.fresh [inr Scenario.no_choice_reply])
      ++ earlier ++ [a]
    /\ ((exists text,
           Raise (A := LLMResponse.t) (IndexError "list index out of range")
           = Raise (IndexError text))
        <-> exists response,
              outcome a = inr response
              /\ ChatCompletion.choices response = []).
Proof.
  apply (index_error_iff_no_choice (C := Scripted.collaborators)
           [Scripted.user "hi"] [ChatCompletionUserMessageParam "hi" "user"]
           (Scripted.parameters "gpt-4o" 0) None true
           (Scripted.fresh [inr Scenario.no_choice_reply])).
  - reflexivity.
  - reflexivity.
Defined.

Lemma decode_error_iff_undecodable_witness :
  exists earlier a,
    network
      (snd (chat (C := Scripted.collaborators) [Scripted.user "hi"]
              (Scripted.parameters "gpt-4o" 0) None true
              (Scripted.fresh [inr Scenario.garbled_reply])))
    = network (Scripted.fresh [inr Scenario.garbled_reply])
      ++ earlier ++ [a]
    /\ ((exists doc,
           Raise (A := LLMResponse.t) (JSONDecodeError "{oops")
           = Raise (JSONDecodeError doc))
        <-> exists response choice others provider_calls,
              outcome a = inr response
              /\ ChatCompletion.choices response = choice :: others
              /\ ChatCompletionMessage.tool_calls (Choice.message choice)
                 = Some provider_calls
              /\ Exists (undecodable (C := Scripted.collaborators))
                   provider_calls).
Proof.
  apply (decode_error_iff_undecodable (C := Scripted.collaborators)
           [Scripted.user "hi"] [ChatCompletionUserMessageParam "hi" "user"]
           (Scripted.parameters "gpt-4o" 0) None true
           (Scripted.fresh [inr Scenario.garbled_reply])).
  - reflexivity.
  - reflexivity.
Defined.

(** ** The response, when one is built *)

Section ResponseBuilt.

Context {C : Collaborators}.



End ResponseBuilt.



(** ** The requests of a call *)

Section Requests.

Context {C : Collaborators}.

Lemma tool_schema_advertised (tools : list Tool.t) :
  Forall2 advertised tools (map tool_schema tools).
Proof.
  induction tools as [|tool rest IH]; simpl; constructor; [|exact IH].
  repeat split.
Qed.

(** X8. Every request of a call carries the model, the temperature, [top_p] and
    [max_tokens] of the configuration and asks for one choice. Its tools
    are not given when the caller passed [None] or an empty list, and
    otherwise are one schema of type [function] per tool, in order, with
    the tool's name, description and input schema. *)
Theorem requests_carry_configuration
    (messages : list LLMMessage.t)
    (records : list ChatCompletionMessageParam.t)
    (mp : ModelParameters.t) (tools : option (list Tool.t)) (reuse : bool)
    (st st' : State) (r : result LLMResponse.t)
    (Hparse : parse_messages messages = Ok records)
    (Hchat : chat messages mp tools reuse st = (r, st')) :
  exists attempts,
    network st' = network st ++ attempts
    /\ Forall
         (fun a =>
            Request.model (request a) = ModelParameters.model mp
            /\ Request.temperature (request a)
               = ModelParameters.temperature mp
            /\ Request.top_p (request a) = ModelParameters.top_p mp
            /\ Request.max_tokens (request a) = ModelParameters.max_tokens mp
            /\ Request.n (request a) = 1%Z
            /\ (tools = None \/ tools = Some [] ->
                Request.tools (request a) = None)
            /\ (forall tool rest,
                  tools = Some (tool :: rest) ->
                  exists schemas,
                    Request.tools (request a) = Some schemas
                    /\ Forall2 advertised (tool :: rest) schemas))
         attempts.
Proof.
  destruct (chat_outcome _ _ _ _ _ _ _ _ Hparse Hchat)
    as (r2 & st2 & Hcall & _ & Hnet & _ & _).
  unfold wrapped_call, retry_with in Hcall.
  apply retry_same_request in Hcall. destruct Hcall as (attempts & Hnet2 & HF).
  rewrite network_with_history in Hnet2.
  exists attempts. split; [congruence|].
  eapply Forall_impl; [|exact HF]. intros a ->.
  unfold request_in. simpl. repeat split.
  - intros [-> | ->]; reflexivity.
  - intros tool rest ->. simpl. eexists. split; [reflexivity|].
    apply (tool_schema_advertised (tool :: rest)).
Qed.

End Requests.

(** One tool offered, the first attempt failing: both requests offer it. *)
Lemma requests_carry_configuration_witness :
  exists attempts,
    network
      (snd (chat (C := Scripted.collaborators) [Scripted.user "hi"]
              (Scripted.parameters "gpt-4o" 2) (Some [Scenario.search_tool])
              true (Scripted.fresh [inl "timeout"; inr Scripted.tool_reply])))
    = network (Scripted.fresh [inl "timeout"; inr Scripted.tool_reply])
      ++ attempts
    /\ Forall
         (fun a =>
            Request.model (request a)
            = ModelParameters.model (Scripted.parameters "gpt-4o" 2)
            /\ Request.temperature (request a)
               = ModelParameters.temperature (Scripted.parameters "gpt-4o" 2)
            /\ Request.top_p (request a)
               = ModelParameters.top_p (Scripted.parameters "gpt-4o" 2)
            /\ Request.max_tokens (request a)
               = ModelParameters.max_tokens (Scripted.parameters "gpt-4o" 2)
            /\ Request.n (request a) = 1%Z
            /\ (Some [Scenario.search_tool] = None
                \/ Some [Scenario.search_tool] = Some [] ->
                Request.tools (request a) = None)
            /\ (forall tool rest,
                  Some [Scenario.search_tool] = Some (tool :: rest) ->
                  exists schemas,
                    Request.tools (request a) = Some schemas
                    /\ Forall2 advertised (tool :: rest) schemas))
         attempts.
Proof.
  apply (requests_carry_configuration (C := Scripted.collaborators)
           [Scripted.user "hi"] [ChatCompletionUserMessageParam "hi" "user"]
           (Scripted.parameters "gpt-4o" 2) (Some [Scenario.search_tool])
           true (Scripted.fresh [inl "timeout"; inr Scripted.tool_reply])
           _ (fst (chat (C := Scripted.collaborators) [Scripted.user "hi"]
                     (Scripted.parameters "gpt-4o" 2)
                     (Some [Scenario.search_tool]) true
                     (Scripted.fresh
                        [inl "timeout"; inr Scripted.tool_reply])))).
  - reflexivity.
  - reflexivity.
Defined.

(** ** The tool calls of a response *)

Section ToolCallsRead.

Context {C : Collaborators}.

Lemma to_ToolCall_read_as tool_call call :
  to_ToolCall tool_call = Ok call -> read_as tool_call call.
Proof.
  unfold to_ToolCall, read_as.
  destruct (FunctionCall.arguments _) as [|c rest].
  - intros H. injection H as <-. simpl. repeat split. intros H. contradiction.
  - destruct (json_loads _) as [arguments|]; [|discriminate].
    intros H. injection H as <-. simpl. repeat split. discriminate.
Qed.

Lemma extract_tool_calls_none choice :
  extract_tool_calls choice = Ok None <->
  ChatCompletionMessage.tool_calls (Choice.message choice) = None
  \/ ChatCompletionMessage.tool_calls (Choice.message choice) = Some [].
Proof.
  unfold extract_tool_calls.
  destruct (ChatCompletionMessage.tool_calls _) as [[|pc rest]|].
  - split; auto.
  - destruct (tool_calls_loop _ _); split; try discriminate;
      intros [H | H]; discriminate.
  - split; auto.
Qed.

(** X9. The tool calls of a successful response are those of the first choice,
    one for one and in order: the identifier and the name are the
    provider's, and the arguments are the decoded document, an empty
    document giving the empty dictionary. The response has no tool calls
    exactly when the provider gave none or an empty list, and never has an
    empty list of its own. *)
Theorem tool_calls_read_from_first_choice
    (messages : list LLMMessage.t) (mp : ModelParameters.t)
    (tools : option (list Tool.t)) (reuse : bool)
    (st st' : State) (rsp : LLMResponse.t)
    (Hok : chat messages mp tools reuse st = (Ok rsp, st')) :
  exists earlier a response choice others,
    network st' = network st ++ earlier ++ [a]
    /\ outcome a = inr response
    /\ ChatCompletion.choices response = choice :: others
    /\ (LLMResponse.tool_calls rsp = None
        <-> ChatCompletionMessage.tool_calls (Choice.message choice) = None
            \/ ChatCompletionMessage.tool_calls (Choice.message choice)
               = Some [])
    /\ LLMResponse.tool_calls rsp <> Some []
    /\ (forall calls,
          LLMResponse.tool_calls rsp = Some calls ->
          exists provider_calls,
            ChatCompletionMessage.tool_calls (Choice.message choice)
            = Some provider_calls
            /\ Forall2 read_as provider_calls calls).
Proof.
  apply chat_ok_response in Hok.
  destruct Hok as (records & earlier & a & response & choice & others
                   & tool_calls & _ & Hnet & Hout & Hchoices & Hextract
                   & -> & _).
  exists earlier, a, response, choice, others. simpl.
  split; [exact Hnet|]. split; [exact Hout|]. split; [exact Hchoices|].
  split; [|split].
  - rewrite <- extract_tool_calls_none. split; congruence.
  - intros ->. now apply extract_tool_calls_nonempty in Hextract.
  - intros calls ->.
    destruct (extract_tool_calls_some _ _ Hextract) as (pcs & Hpcs & _ & HF).
    exists pcs. split; [exact Hpcs|].
    eapply Forall2_impl; [|exact HF]. apply to_ToolCall_read_as.
Qed.

End ToolCallsRead.

Lemma tool_calls_read_from_first_choice_witness :
  exists earlier a response choice others,
    network Scripted.after_tool_reply
    = network (Scripted.fresh [inl "timeout"; inr Scripted.tool_reply])
      ++ earlier ++ [a]
    /\ outcome a = inr response
    /\ ChatCompletion.choices response = choice :: others
    /\ (Some [ToolCall.mk "bash" "call_1" (JDict [])] = None
        <-> ChatCompletionMessage.tool_calls (Choice.message choice) = None
            \/ ChatCompletionMessage.tool_calls (Choice.message choice)
               = Some [])
    /\ Some [ToolCall.mk "bash" "call_1" (JDict [])] <> Some []
    /\ (forall calls,
          Some [ToolCall.mk "bash" "call_1" (JDict [])] = Some calls ->
          exists provider_calls,
            ChatCompletionMessage.tool_calls (Choice.message choice)
            = Some provider_calls
            /\ Forall2 (read_as (C := Scripted.collaborators))
                 provider_calls calls).
Proof.
  apply (tool_calls_read_from_first_choice (C := Scripted.collaborators)
           [Scripted.user "hi"] (Scripted.parameters "gpt-4o" 2) None true
           (Scripted.fresh [inl "timeout"; inr Scripted.tool_reply])
           Scripted.after_tool_reply
           (LLMResponse.mk "running"
              (Some [ToolCall.mk "bash" "call_1" (JDict [])])
              "stop" "gpt-4o" (Some (LLMUsage.mk 12 0)))).
  reflexivity.
Defined.

(** ** Invariants of the client *)

Section Invariants.

Context {C : Collaborators}.

Lemma same_configuration_with_history client records :
  same_configuration client (AzureClient.with_message_history client records).
Proof. repeat split. Qed.

(** X10. No method touches the connection fields, the SDK client or the
    recorder: whatever the outcome, [set_chat_history], [chat] and
    [supports_tool_calling] change at most the stored history. *)
Theorem configuration_preserved :
  (forall messages (st st' : State) r,
     set_chat_history messages st = (r, st') ->
     same_configuration (self st) (self st'))
  /\ (forall messages mp tools reuse (st st' : State) r,
        chat messages mp tools reuse st = (r, st') ->
        same_configuration (self st) (self st'))
  /\ (forall mp (st st' : State) r,
        supports_tool_calling mp st = (r, st') ->
        same_configuration (self st) (self st')).
Proof.
  split; [|split].
  - intros messages st st' r. rewrite set_chat_history_spec.
    destruct (parse_messages messages); intros H; injection H as _ <-;
      repeat split.
  - intros messages mp tools reuse st st' r H.
    destruct (parse_messages messages) as [records|e] eqn:Hparse.
    + destruct (chat_outcome _ _ _ _ _ _ _ _ Hparse H)
        as (_ & _ & _ & _ & _ & Hself & _).
      rewrite Hself. apply same_configuration_with_history.
    + rewrite (chat_parse_error _ _ _ _ _ _ Hparse) in H.
      injection H as _ <-. repeat split.
  - intros mp st st' r H. injection H as _ <-. repeat split.
Qed.

Lemma parse_message_well_formed msg record :
  parse_message msg = Ok record -> well_formed record.
Proof.
  unfold parse_message, well_formed.
  destruct (LLMMessage.tool_call msg) as [tc|].
  { intros H. injection H as <-. left. simpl. repeat split. discriminate. }
  destruct (LLMMessage.tool_result msg) as [tr|].
  { intros H. injection H as <-. right. left. simpl. repeat split.
    discriminate. }
  destruct (LLMMessage.role msg =? "system")%string.
  { destruct (LLMMessage.content msg) as [[|c rest]|]; try discriminate.
    intros H. injection H as <-. right. right. left. simpl.
    repeat split; auto. discriminate. }
  destruct (LLMMessage.role msg =? "user")%string.
  { destruct (LLMMessage.content msg) as [[|c rest]|]; try discriminate.
    intros H. injection H as <-. right. right. left. simpl.
    repeat split; auto. discriminate. }
  destruct (LLMMessage.role msg =? "assistant")%string; [|discriminate].
  destruct (LLMMessage.content msg) as [[|c rest]|]; try discriminate.
  intros H. injection H as <-. right. right. right. simpl.
  repeat split. left. split; [reflexivity | discriminate].
Qed.

Lemma parse_messages_well_formed messages records :
  parse_messages messages = Ok records -> Forall well_formed records.
Proof.
  intros H. apply parse_messages_ok in H.
  induction H as [|msg record rest records' Hmsg _ IH]; constructor.
  - eapply parse_message_well_formed; eauto.
  - exact IH.
Qed.

Lemma tool_call_params_function (calls : list ToolCall.t) :
  Forall (fun e => ChatCompletionMessageToolCallParam.type e = "function")
    (map tool_call_param calls).
Proof. induction calls; simpl; constructor; auto. Qed.

Lemma assistant_turn_well_formed (rsp : LLMResponse.t) :
  Forall well_formed (assistant_turn rsp).
Proof.
  assert (Hplain : forall c rest,
            Forall well_formed
              [ChatCompletionAssistantMessageParam
                 "assistant" (String c rest) None]).
  { intros c rest. apply Forall_cons; [|apply Forall_nil].
    right. right. right. simpl. repeat split. left.
    split; [reflexivity | discriminate]. }
  unfold assistant_turn.
  destruct (LLMResponse.tool_calls rsp) as [[|call rest]|].
  - destruct (LLMResponse.content rsp); [apply Forall_nil | apply Hplain].
  - apply Forall_cons; [|apply Forall_nil].
    right. right. right. simpl. repeat split. right.
    eexists. eexists. split; [reflexivity|].
    apply (tool_call_params_function (call :: rest)).
  - destruct (LLMResponse.content rsp); [apply Forall_nil | apply Hplain].
Qed.

(** X11. The stored history keeps the shapes of its records. If every stored
    record is well formed (a function record with a name, a tool record
    with a [tool_call_id], a system or user record with content, an
    assistant record with content or with a non-empty list of tool calls of
    type [function]), then so is every record stored after
    [set_chat_history] or [chat], whatever the outcome. *)
Theorem history_stays_well_formed
    (st : State) (Hwf : Forall well_formed (history st)) :
  (forall messages r st',
     set_chat_history messages st = (r, st') ->
     Forall well_formed (history st'))
  /\ (forall messages mp tools reuse r st',
        chat messages mp tools reuse st = (r, st') ->
        Forall well_formed (history st')).
Proof.
  split.
  - intros messages r st'. rewrite set_chat_history_spec.
    destruct (parse_messages messages) as [records|e] eqn:Hparse;
      intros H; injection H as _ <-; [|exact Hwf].
    simpl. eapply parse_messages_well_formed; eauto.
  - intros messages mp tools reuse r st' H.
    destruct (parse_messages messages) as [records|e] eqn:Hparse.
    2:{ rewrite (chat_parse_error _ _ _ _ _ _ Hparse) in H.
        now injection H as _ <-. }
    pose proof (parse_messages_well_formed _ _ Hparse) as Hrecords.
    assert (Hentered : Forall well_formed (entered_history reuse st records)).
    { destruct reuse; simpl; [apply Forall_app; auto | exact Hrecords]. }
    destruct (chat_outcome _ _ _ _ _ _ _ _ Hparse H)
      as (r2 & st2 & _ & Hhist & _ & _ & Hcase).
    destruct r2 as [response|e];
      [|destruct Hcase as (_ & ->); now rewrite Hhist].
    destruct (first_choice response) as [choice|e];
      [|destruct Hcase as (_ & ->); now rewrite Hhist].
    destruct (extract_tool_calls choice) as [calls|e];
      [|destruct Hcase as (_ & ->); now rewrite Hhist].
    destruct Hcase as (-> & _). rewrite Hhist.
    apply Forall_app. split; [exact Hentered|].
    apply assistant_turn_well_formed.
Qed.

End Invariants.

(** From the history left by the tool reply. *)
Lemma history_stays_well_formed_witness :
  (forall messages r st',
     set_chat_history messages Scripted.after_tool_reply = (r, st') ->
     Forall well_formed (history st'))
  /\ (forall messages mp tools reuse r st',
        chat messages mp tools reuse Scripted.after_tool_reply = (r, st') ->
        Forall well_formed (history st')).
Proof.
  apply (history_stays_well_formed (C := Scripted.collaborators)).
  apply Forall_cons; [|apply Forall_cons; [|apply Forall_nil]].
  - right. right. left. simpl. repeat split; auto. discriminate.
  - right. right. right. simpl. repeat split. right.
    eexists. eexists. split; [reflexivity|].
    apply Forall_cons; [reflexivity | apply Forall_nil].
Defined.

(** ** The content of tool records *)

Section ToolContent.

Context {C : Collaborators}.

Lemma lstrip_first (s : string) (c : ascii) :
  first_char (Py.lstrip s) = Some c -> Py.isspace c = false.
Proof.
  induction s as [|a rest IH]; simpl; [discriminate|].
  destruct (Py.isspace a) eqn:Ha; [exact IH|].
  simpl. intros H. injection H as <-. exact Ha.
Qed.

Lemma last_char_cons (a : ascii) (s : string) (c : ascii) :
  last_char s = Some c -> last_char (String a s) = Some c.
Proof. destruct s; [discriminate | auto]. Qed.

Lemma lstrip_last (s : string) (c : ascii) :
  last_char (Py.lstrip s) = Some c -> last_char s = Some c.
Proof.
  induction s as [|a rest IH]; [auto|].
  cbn [Py.lstrip]. destruct (Py.isspace a); [|auto].
  intros H. apply last_char_cons. auto.
Qed.

Lemma rstrip_last (s : string) (c : ascii) :
  last_char (Py.rstrip s) = Some c -> Py.isspace c = false.
Proof.
  revert c. induction s as [|a rest IH]; intros c; simpl; [discriminate|].
  destruct (Py.rstrip rest) as [|b kept] eqn:Hrest.
  - destruct (Py.isspace a) eqn:Ha; simpl; [discriminate|].
    intros H. injection H as <-. exact Ha.
  - intros H. apply IH. exact H.
Qed.

Lemma strip_trimmed (s : string) : trimmed (Py.strip s).
Proof.
  unfold trimmed, Py.strip. split; intros c H.
  - eapply lstrip_first; eauto.
  - eapply rstrip_last. eapply lstrip_last. exact H.
Qed.

(** X12. The content of every tool-role record of a translation neither starts
    nor ends with a whitespace character, whatever the result and the error
    text were. *)
Theorem tool_content_trimmed
    (messages : list LLMMessage.t)
    (records : list ChatCompletionMessageParam.t)
    (Hparse : parse_messages messages = Ok records) :
  Forall (fun record =>
            ChatCompletionMessageParam.role record = "tool" ->
            trimmed (ChatCompletionMessageParam.content record))
    records.
Proof.
  apply parse_messages_ok in Hparse.
  induction Hparse as [|msg record rest records' Hmsg _ IH];
    constructor; [|exact IH].
  unfold parse_message in Hmsg.
  destruct (LLMMessage.tool_call msg) as [tc|].
  { injection Hmsg as <-. discriminate. }
  destruct (LLMMessage.tool_result msg) as [tr|].
  { injection Hmsg as <-. intros _. apply strip_trimmed. }
  destruct (LLMMessage.role msg =? "system")%string.
  { destruct (LLMMessage.content msg) as [[|c rest0]|]; try discriminate.
    injection Hmsg as <-. discriminate. }
  destruct (LLMMessage.role msg =? "user")%string.
  { destruct (LLMMessage.content msg) as [[|c rest0]|]; try discriminate.
    injection Hmsg as <-. discriminate. }
  destruct (LLMMessage.role msg =? "assistant")%string; [|discriminate].
  destruct (LLMMessage.content msg) as [[|c rest0]|]; try discriminate.
  injection Hmsg as <-. discriminate.
Qed.

End ToolContent.

(** A result wrapped in blanks and line feeds. *)
Lemma tool_content_trimmed_witness :
  Forall (fun record =>
            ChatCompletionMessageParam.role record = "tool" ->
            trimmed (ChatCompletionMessageParam.content record))
    [ChatCompletionToolMessageParam "done" "tool" "call_1"].
Proof.
  apply (tool_content_trimmed (C := Scripted.collaborators)
           [Scripted.tool_outcome
              (ToolResult.mk "call_1"
                 (Some (" " ++ Py.LF ++ "done" ++ Py.LF ++ " ")%string)
                 None)]).
  reflexivity.
Defined.

(** ** A conversation over two calls *)

Section Conversation.

Context {C : Collaborators}.

(** X13. After a successful call, a second call that reuses the history sends
    the provider the whole conversation: what the first call entered, the
    assistant's turn of the first call, and the translation of the new
    messages, in this order and in every attempt. *)
Theorem conversation_accumulates
    (first second : list LLMMessage.t)
    (more : list ChatCompletionMessageParam.t)
    (mp mp' : ModelParameters.t) (tools tools' : option (list Tool.t))
    (reuse : bool) (st st1 st2 : State)
    (rsp : LLMResponse.t) (r : result LLMResponse.t)
    (Hfirst : chat first mp tools reuse st = (Ok rsp, st1))
    (Hmore : parse_messages second = Ok more)
    (Hsecond : chat second mp' tools' true st1 = (r, st2)) :
  exists records attempts,
    parse_messages first = Ok records
    /\ attempts <> []
    /\ network st2 = network st1 ++ attempts
    /\ Forall (fun a =>
                 Request.messages (request a) =
                   (if reuse then history st ++ records else records)
                   ++ assistant_turn rsp ++ more)
         attempts.
Proof.
  apply chat_ok_inv in Hfirst.
  destruct Hfirst as (records & _ & _ & _ & _ & Hparse & _ & _ & _ & _
                      & Hhist & _).
  destruct (chat_sends_entered_history _ _ _ _ _ _ _ _ Hmore Hsecond)
    as (attempts & _ & Hne & Hnet & HF & _).
  exists records, attempts. repeat split; try assumption.
  eapply Forall_impl; [|exact HF]. intros a ->.
  simpl. rewrite Hhist, <- app_assoc. reflexivity.
Qed.

End Conversation.

(** The tool is asked for, its result sent back. *)
Lemma conversation_accumulates_witness :
  exists records attempts,
    parse_messages (C := Scripted.collaborators) [Scripted.user "hi"]
    = Ok records
    /\ attempts <> []
    /\ network
         (snd (chat (C := Scripted.collaborators)
                 [Scripted.tool_outcome Scripted.ok_then_bad]
                 (Scripted.parameters "gpt-4o" 0) None true
                 Scripted.after_tool_reply))
       = network Scripted.after_tool_reply ++ attempts
    /\ Forall (fun a =>
                 Request.messages (request a) =
                   (if true
                    then history
                           (Scripted.fresh
                              [inl "timeout"; inr Scripted.tool_reply])
                         ++ records
                    else records)
                   ++ assistant_turn (C := Scripted.collaborators)
                        (LLMResponse.mk "running"
                           (Some [ToolCall.mk "bash" "call_1" (JDict [])])
                           "stop" "gpt-4o" (Some (LLMUsage.mk 12 0)))
                   ++ [ChatCompletionToolMessageParam
                         ("ok" ++ Py.LF ++ "Tool call failed with error:"
                            ++ Py.LF ++ "bad")
                         "tool" "call_1"])
         attempts.
Proof.
  apply (conversation_accumulates (C := Scripted.collaborators)
           [Scripted.user "hi"] [Scripted.tool_outcome Scripted.ok_then_bad]
           _ (Scripted.parameters "gpt-4o" 2) (Scripted.parameters "gpt-4o" 0)
           None None true
           (Scripted.fresh [inl "timeout"; inr Scripted.tool_reply])
           Scripted.after_tool_reply _ _
           (fst (chat (C := Scripted.collaborators)
                   [Scripted.tool_outcome Scripted.ok_then_bad]
                   (Scripted.parameters "gpt-4o" 0) None true
                   Scripted.after_tool_reply))).
  - reflexivity.
  - reflexivity.
  - reflexivity.
Defined.
